(** * Touchpoints provisioning workflow: a shallow embedding

    The development models [create_touchpoints.py] (class
    [TouchpointsCreator] and [main]) and [run_example.py].  The Python code
    is translated function by function into a small state-and-exception
    monad over a record [world] that holds the process environment, the two
    external collaborators (the MySQL datastore and the NATS bus), the
    sources of randomness and time, and the log.  The behaviour of the
    client libraries that the repository does not own (whether a call
    raises, whether a connection is still alive) is left to an oracle
    stored in the world, so every theorem quantifies over all of it. *)

From Stdlib Require Import ZArith Ascii String List Bool Lia.
From stdpp Require Import base option list strings gmap.

Set Warnings "-register-all".

Local Open Scope string_scope.
Local Open Scope Z_scope.
Local Open Scope list_scope.

(** ** Python values *)

(** A naive [datetime.datetime] (no tzinfo), as [mysql.connector] returns for
    DATETIME/TIMESTAMP columns and as [datetime.utcnow()] returns. *)
Record datetime := mk_datetime {
  dt_year : Z; dt_month : Z; dt_day : Z;
  dt_hour : Z; dt_minute : Z; dt_second : Z; dt_microsecond : Z }.

(** The ranges that Python's [datetime] constructor enforces (the day is
    bounded by 31 here; the month-specific bound plays no role). *)
Definition valid_datetime (d : datetime) : bool :=
  (1 <=? dt_year d) && (dt_year d <=? 9999) &&
  (1 <=? dt_month d) && (dt_month d <=? 12) &&
  (1 <=? dt_day d) && (dt_day d <=? 31) &&
  (0 <=? dt_hour d) && (dt_hour d <=? 23) &&
  (0 <=? dt_minute d) && (dt_minute d <=? 59) &&
  (0 <=? dt_second d) && (dt_second d <=? 59) &&
  (0 <=? dt_microsecond d) && (dt_microsecond d <=? 999999).

(** The scalar Python objects that travel through the workflow: what
    [mysql.connector] hands back for a column ([None] for NULL, [int],
    [str], [datetime]) and what the scripts compute from them. *)
Inductive atom :=
| ANone
| AInt (z : Z)
| AStr (s : string)
| ADatetime (d : datetime).

(** Python objects with containers, as needed for the event payload: lists
    and dictionaries (insertion ordered, hence association lists). *)
Inductive pyval :=
| VAtom (a : atom)
| VList (items : list pyval)
| VDict (entries : list (string * pyval)).

(** Python truthiness, as tested by [if x:] and [if not x:]. *)
Class Truthy (A : Type) := truthy : A -> bool.

#[global] Instance truthy_bool : Truthy bool := fun b => b.
#[global] Instance truthy_int : Truthy Z := fun z => negb (z =? 0).
#[global] Instance truthy_str : Truthy string := fun s => negb (String.eqb s "").
#[global] Instance truthy_datetime : Truthy datetime := fun _ => true.
#[global] Instance truthy_list {A} : Truthy (list A) :=
  fun l => match l with [] => false | _ :: _ => true end.
#[global] Instance truthy_optional {A} `{Truthy A} : Truthy (option A) :=
  fun o => match o with None => false | Some a => truthy a end.
#[global] Instance truthy_atom : Truthy atom :=
  fun a => match a with
           | ANone => false
           | AInt z => truthy z
           | AStr s => truthy s
           | ADatetime d => truthy d
           end.

(** A Python [dict] with string keys. *)
Definition dict (A : Type) := list (string * A).

Fixpoint dict_get {A} (k : string) (d : dict A) : option A :=
  match d with
  | [] => None
  | (k', v) :: rest => if String.eqb k k' then Some v else dict_get k rest
  end.

(** [d[k] = v]: an existing key keeps its position, a new key goes last. *)
Fixpoint dict_set {A} (k : string) (v : A) (d : dict A) : dict A :=
  match d with
  | [] => [(k, v)]
  | (k', v') :: rest =>
      if String.eqb k k' then (k, v) :: rest else (k', v') :: dict_set k v rest
  end.

(** ** Text formatting *)

Definition digit_char (d : Z) : ascii :=
  ascii_of_nat (48 + Z.to_nat d).

Fixpoint dec_aux (fuel : nat) (n : Z) (acc : string) : string :=
  match fuel with
  | O => acc
  | S f =>
      let acc' := String (digit_char (n mod 10)) acc in
      if n / 10 =? 0 then acc' else dec_aux f (n / 10) acc'
  end.

(** Decimal digits of a non-negative integer, most significant first. *)
Definition dec (n : Z) : string :=
  dec_aux (S (Z.to_nat (Z.log2 n))) n "".

(** [str] of a Python [int]. *)
Definition str_int (z : Z) : string :=
  if z <? 0 then "-" +:+ dec (- z) else dec z.

Fixpoint zeros (k : nat) : string :=
  match k with O => "" | S k' => String "0" (zeros k') end.

(** ["%0<w>d" % n] for a non-negative [n]: left padding with zeros up to
    width [w], never truncating. *)
Definition zpad (w : nat) (n : Z) : string :=
  let s := dec n in zeros (w - String.length s) +:+ s.

(** [datetime.isoformat(sep)] of a naive datetime: the fraction is printed
    only when the microsecond field is not zero. *)
Definition isoformat_sep (sep : string) (d : datetime) : string :=
  zpad 4 (dt_year d) +:+ "-" +:+ zpad 2 (dt_month d) +:+ "-" +:+ zpad 2 (dt_day d)
  +:+ sep +:+
  zpad 2 (dt_hour d) +:+ ":" +:+ zpad 2 (dt_minute d) +:+ ":" +:+ zpad 2 (dt_second d)
  +:+ (if dt_microsecond d =? 0 then "" else "." +:+ zpad 6 (dt_microsecond d)).

Definition isoformat : datetime -> string := isoformat_sep "T".

Fixpoint join (sep : string) (l : list string) : string :=
  match l with
  | [] => ""
  | [x] => x
  | x :: rest => x +:+ sep +:+ join sep rest
  end.

(** [str(a)] as used by the f-strings of the log lines. *)
Definition py_str (a : atom) : string :=
  match a with
  | ANone => "None"
  | AInt z => str_int z
  | AStr s => s
  | ADatetime d => isoformat_sep " " d
  end.

(** ** [json.dumps(obj, indent=2)]

    A character of a [string] stands for the Unicode code point of the same
    number (0 to 255).  With the default [ensure_ascii=True] everything
    outside the printable ASCII range is escaped. *)

Definition hex_char (n : Z) : ascii :=
  if n <? 10 then ascii_of_nat (48 + Z.to_nat n) else ascii_of_nat (87 + Z.to_nat n).

Definition newline : string := String (ascii_of_nat 10) "".

Definition json_escape_char (c : ascii) : string :=
  let n := Z.of_nat (nat_of_ascii c) in
  if n =? 34 then "\" +:+ String c ""
  else if n =? 92 then "\\"
  else if n =? 8 then "\b"
  else if n =? 12 then "\f"
  else if n =? 10 then "\n"
  else if n =? 13 then "\r"
  else if n =? 9 then "\t"
  else if (32 <=? n) && (n <=? 126) then String c ""
  else "\u00" +:+ String (hex_char (n / 16)) (String (hex_char (n mod 16)) "").

Fixpoint json_escape (s : string) : string :=
  match s with
  | EmptyString => ""
  | String c rest => json_escape_char c +:+ json_escape rest
  end.

Definition json_string (s : string) : string :=
  String (ascii_of_nat 34) (json_escape s) +:+ String (ascii_of_nat 34) "".

Fixpoint spaces (k : nat) : string :=
  match k with O => "" | S k' => String " " (spaces k') end.

(** Line break followed by the indentation of nesting depth [level]. *)
Definition newline_indent (level : nat) : string :=
  newline +:+ spaces (2 * level).

Definition bracketed (opening closing : string) (level : nat) (parts : list string) : string :=
  match parts with
  | [] => opening +:+ closing
  | _ => opening +:+ newline_indent (S level)
         +:+ join ("," +:+ newline_indent (S level)) parts
         +:+ newline_indent level +:+ closing
  end.

(** [None] stands for the [TypeError] that [json.dumps] raises on an object
    it cannot serialize (here: a [datetime]). *)
Fixpoint json_encode (level : nat) (v : pyval) : option string :=
  match v with
  | VAtom ANone => Some "null"
  | VAtom (AInt z) => Some (str_int z)
  | VAtom (AStr s) => Some (json_string s)
  | VAtom (ADatetime _) => None
  | VList items =>
      let fix elements (l : list pyval) : option (list string) :=
        match l with
        | [] => Some []
        | x :: rest =>
            match json_encode (S level) x, elements rest with
            | Some sx, Some srest => Some (sx :: srest)
            | _, _ => None
            end
        end in
      option_map (bracketed "[" "]" level) (elements items)
  | VDict entries =>
      let fix members (l : list (string * pyval)) : option (list string) :=
        match l with
        | [] => Some []
        | (k, x) :: rest =>
            match json_encode (S level) x, members rest with
            | Some sx, Some srest => Some ((json_string k +:+ ": " +:+ sx) :: srest)
            | _, _ => None
            end
        end in
      option_map (bracketed "{" "}" level) (members entries)
  end.

Definition json_dumps_indent2 (v : pyval) : option string := json_encode 0 v.

(** A [dict] of atoms seen as a Python object. *)
Definition dict_val (d : dict atom) : pyval :=
  VDict (map (fun kv => (fst kv, VAtom (snd kv))) d).

(** ** [int(s)] on a string: surrounding whitespace, an optional sign, then
    decimal digits in which single underscores may separate digits. *)

Definition is_space (c : ascii) : bool :=
  let n := nat_of_ascii c in
  ((9 <=? n) && (n <=? 13))%nat || Nat.eqb n 32.

Definition is_digit (c : ascii) : bool :=
  let n := nat_of_ascii c in ((48 <=? n) && (n <=? 57))%nat.

Fixpoint lstrip (s : string) : string :=
  match s with
  | String c rest => if is_space c then lstrip rest else s
  | EmptyString => ""
  end.

Fixpoint rstrip (s : string) : string :=
  match s with
  | EmptyString => ""
  | String c rest =>
      match rstrip rest with
      | EmptyString => if is_space c then "" else String c ""
      | r => String c r
      end
  end.

(** [after_digit] tells whether the previous character was a digit, which
    is where an underscore or the end of the literal is allowed. *)
Fixpoint int_digits (after_digit : bool) (acc : Z) (s : string) : option Z :=
  match s with
  | EmptyString => if after_digit then Some acc else None
  | String c rest =>
      if is_digit c then
        int_digits true (10 * acc + (Z.of_nat (nat_of_ascii c) - 48)) rest
      else if (Ascii.eqb c "_" && after_digit)%bool then int_digits false acc rest
      else None
  end.

(** [None] stands for [ValueError]. *)
Definition py_int (s : string) : option Z :=
  match lstrip (rstrip s) with
  | String "-" rest => option_map Z.opp (int_digits false 0 rest)
  | String "+" rest => int_digits false 0 rest
  | body => int_digits false 0 body
  end.

(** ** [uuid.uuid4()] and [str(UUID)]

    [uuid4] reads 16 bytes of operating-system randomness as a big-endian
    integer, then forces the RFC 4122 variant bits (63, 62 := 1, 0) and the
    version nibble (bits 79..76 := 4). *)
Definition uuid4_int (r : Z) : Z :=
  let i0 := r mod 2 ^ 128 in
  let i1 := Z.land i0 (Z.lnot (Z.shiftl 0xc000 48)) in
  let i2 := Z.lor i1 (Z.shiftl 0x8000 48) in
  let i3 := Z.land i2 (Z.lnot (Z.shiftl 0xf000 64)) in
  Z.lor i3 (Z.shiftl 4 76).

(** ['%032x' % n] for [0 <= n < 2^128]. *)
Definition hex32 (n : Z) : list ascii :=
  map (fun i => hex_char (Z.land (Z.shiftr n (4 * (31 - Z.of_nat i))) 15)) (seq 0 32).

(** The 8-4-4-4-12 rendering. *)
Definition uuid_str (n : Z) : string :=
  let h := hex32 n in
  let dash := "-"%char in
  string_of_list_ascii
    (take 8 h ++ dash :: take 4 (drop 8 h) ++ dash :: take 4 (drop 12 h)
            ++ dash :: take 4 (drop 16 h) ++ dash :: drop 20 h).

(** ** Exceptions and outcomes *)

(** The classes of [Exception] that occur; [SystemExit] is not one of them
    (it derives from [BaseException]) and is the [Exit] outcome below. *)
Inductive exn :=
| MySQLError (msg : string)
| NatsConnectionClosedError (msg : string)
| NatsTimeoutError (msg : string)
| ValueError (msg : string)
| TypeError (msg : string)
| AttributeError (msg : string)
| KeyError (msg : string)
| UnboundLocalError (msg : string)
| OtherException (msg : string).

(** [str(e)]. *)
Definition exn_msg (e : exn) : string :=
  match e with
  | MySQLError m | NatsConnectionClosedError m | NatsTimeoutError m
  | ValueError m | TypeError m | AttributeError m | KeyError m
  | UnboundLocalError m | OtherException m => m
  end.

(** [except Error] with [Error] imported from [mysql.connector]. *)
Definition is_mysql_Error (e : exn) : bool :=
  match e with MySQLError _ => true | _ => false end.

(** [except (ConnectionClosedError, TimeoutError)] from [nats.errors]. *)
Definition is_nats_connection_error (e : exn) : bool :=
  match e with
  | NatsConnectionClosedError _ | NatsTimeoutError _ => true
  | _ => false
  end.

(** [except Exception]. *)
Definition is_Exception (e : exn) : bool := true.

Inductive outcome (A : Type) :=
| Val (a : A)
| Raise (e : exn)
| Exit (code : Z).
Arguments Val {A} a.
Arguments Raise {A} e.
Arguments Exit {A} code.

(** ** The world *)

Record db_config := mk_db_config {
  cfg_host : option string;
  cfg_port : Z;
  cfg_database : option string;
  cfg_user : option string;
  cfg_password : option string;
  cfg_charset : string;
  cfg_collation : string }.

(** Rows of [corporate_customers] (the columns the scripts read). *)
Record customer_row := mk_customer {
  cust_id : atom;
  cust_name : atom;
  cust_subscription_tier : atom;
  cust_created_at : atom;
  cust_updated_at : atom }.

(** Rows of [touchpoints]. *)
Record touchpoints_row := mk_touchpoints {
  tp_id : atom;
  tp_customer_id : atom;
  tp_welcome_outreach : atom;
  tp_technical_onboarding : atom;
  tp_follow_up_call : atom;
  tp_feedback_session : atom }.

(** The three SQL statements of the script. *)
Inductive sql :=
| SelectCustomerByName
| InsertTouchpoints
| SelectCustomerById.

Definition sql_text (q : sql) : string :=
  match q with
  | SelectCustomerByName =>
      "SELECT id, name, subscription_tier FROM corporate_customers WHERE name = %s"
  | InsertTouchpoints =>
      "INSERT INTO touchpoints (id, customer_id, welcome_outreach, technical_onboarding, follow_up_call, feedback_session) VALUES (%s, %s, NULL, NULL, NULL, NULL)"
  | SelectCustomerById =>
      "SELECT id, name, subscription_tier, created_at, updated_at FROM corporate_customers WHERE id = %s"
  end.

(** Every call into a client library, in the order made, whether or not it
    then raised. *)
Inductive event :=
| EvDbConnect (cfg : db_config)
| EvCursor (dictionary : bool)
| EvExecute (q : sql) (params : list atom)
| EvFetchone
| EvCommit
| EvIsConnected
| EvCursorClose
| EvConnectionClose
| EvNatsConnect (url user password : option string)
| EvNatsPublish (subject body : string)
| EvNatsClose.

Inductive level := INFO | ERROR.

Record world := mk_world {
  (** [os.environ] *)
  environ : gmap string string;
  (** the datastore: committed tables *)
  corporate_customers : list customer_row;
  touchpoints : list touchpoints_row;
  (** the open transaction and the unread rows of the current connection *)
  uncommitted : list touchpoints_row;
  resultset : list (dict atom);
  (** messages delivered to the bus, as (subject, body) *)
  bus : list (string * string);
  (** oracle: the answer to the next client-library calls, [Some e] for a
      call that raises [e]; calls beyond the end of the list go well *)
  script : list (option exn);
  (** oracle: the next answers of [connection.is_connected()], [True]
      beyond the end of the list *)
  alive : list bool;
  (** [os.urandom(16)] as an integer, per draw, and the draws made *)
  entropy : nat -> Z;
  draws : nat;
  (** what [datetime.utcnow()] reads *)
  utc_clock : datetime;
  (** library calls made, log records and lines printed, oldest first *)
  calls : list event;
  logs : list (level * string);
  stdout : list string;
  (** names bound in the frame of the running method, for [locals()] *)
  frame : list string }.

(** Field updates. *)
Definition set_environ (x : gmap string string) (w : world) : world :=
  mk_world x (corporate_customers w) (touchpoints w) (uncommitted w) (resultset w) (bus w) (script w) (alive w) (entropy w) (draws w) (utc_clock w) (calls w) (logs w) (stdout w) (frame w).
Definition set_touchpoints (x : list touchpoints_row) (w : world) : world :=
  mk_world (environ w) (corporate_customers w) x (uncommitted w) (resultset w) (bus w) (script w) (alive w) (entropy w) (draws w) (utc_clock w) (calls w) (logs w) (stdout w) (frame w).
Definition set_uncommitted (x : list touchpoints_row) (w : world) : world :=
  mk_world (environ w) (corporate_customers w) (touchpoints w) x (resultset w) (bus w) (script w) (alive w) (entropy w) (draws w) (utc_clock w) (calls w) (logs w) (stdout w) (frame w).
Definition set_resultset (x : list (dict atom)) (w : world) : world :=
  mk_world (environ w) (corporate_customers w) (touchpoints w) (uncommitted w) x (bus w) (script w) (alive w) (entropy w) (draws w) (utc_clock w) (calls w) (logs w) (stdout w) (frame w).
Definition set_bus (x : list (string * string)) (w : world) : world :=
  mk_world (environ w) (corporate_customers w) (touchpoints w) (uncommitted w) (resultset w) x (script w) (alive w) (entropy w) (draws w) (utc_clock w) (calls w) (logs w) (stdout w) (frame w).
Definition set_script (x : list (option exn)) (w : world) : world :=
  mk_world (environ w) (corporate_customers w) (touchpoints w) (uncommitted w) (resultset w) (bus w) x (alive w) (entropy w) (draws w) (utc_clock w) (calls w) (logs w) (stdout w) (frame w).
Definition set_alive (x : list bool) (w : world) : world :=
  mk_world (environ w) (corporate_customers w) (touchpoints w) (uncommitted w) (resultset w) (bus w) (script w) x (entropy w) (draws w) (utc_clock w) (calls w) (logs w) (stdout w) (frame w).
Definition set_draws (x : nat) (w : world) : world :=
  mk_world (environ w) (corporate_customers w) (touchpoints w) (uncommitted w) (resultset w) (bus w) (script w) (alive w) (entropy w) x (utc_clock w) (calls w) (logs w) (stdout w) (frame w).
Definition set_calls (x : list event) (w : world) : world :=
  mk_world (environ w) (corporate_customers w) (touchpoints w) (uncommitted w) (resultset w) (bus w) (script w) (alive w) (entropy w) (draws w) (utc_clock w) x (logs w) (stdout w) (frame w).
Definition set_logs (x : list (level * string)) (w : world) : world :=
  mk_world (environ w) (corporate_customers w) (touchpoints w) (uncommitted w) (resultset w) (bus w) (script w) (alive w) (entropy w) (draws w) (utc_clock w) (calls w) x (stdout w) (frame w).
Definition set_stdout (x : list string) (w : world) : world :=
  mk_world (environ w) (corporate_customers w) (touchpoints w) (uncommitted w) (resultset w) (bus w) (script w) (alive w) (entropy w) (draws w) (utc_clock w) (calls w) (logs w) x (frame w).
Definition set_frame (x : list string) (w : world) : world :=
  mk_world (environ w) (corporate_customers w) (touchpoints w) (uncommitted w) (resultset w) (bus w) (script w) (alive w) (entropy w) (draws w) (utc_clock w) (calls w) (logs w) (stdout w) x.

(** ** The monad: state passing with Python's three ways out of a call *)

Definition M (A : Type) : Type := world -> outcome A * world.

Definition ret {A} (a : A) : M A := fun w => (Val a, w).

Definition bind {A B} (m : M A) (k : A -> M B) : M B :=
  fun w =>
    match m w with
    | (Val a, w') => k a w'
    | (Raise e, w') => (Raise e, w')
    | (Exit c, w') => (Exit c, w')
    end.

Notation "x <- m ;; k" := (bind m (fun x => k))
  (at level 20, m at level 99, k at level 200, only parsing).
Notation "m ;; k" := (bind m (fun _ => k))
  (at level 100, k at level 200, right associativity, only parsing).

(** [raise e] *)
Definition raise {A} (e : exn) : M A := fun w => (Raise e, w).

(** [sys.exit(code)] *)
Definition sys_exit {A} (code : Z) : M A := fun w => (Exit code, w).

(** The [except] clauses of a [try], in order: the class test and the
    handler of each. *)
Definition clauses (A : Type) := list ((exn -> bool) * (exn -> M A)).

Fixpoint dispatch {A} (cs : clauses A) (e : exn) : M A :=
  match cs with
  | [] => raise e
  | (catches, handler) :: rest =>
      if catches e then handler e else dispatch rest e
  end.

(** [try: body / except C1 as e: h1 / except C2 as e: h2 ...]: the first
    clause whose class matches handles the exception; [SystemExit] passes
    through. *)
Definition try_except {A} (body : M A) (cs : clauses A) : M A :=
  fun w =>
    match body w with
    | (Raise e, w') => dispatch cs e w'
    | r => r
    end.

(** [try: body / finally: cleanup].  The cleanup runs on every way out of
    the body; if it raises or exits itself, that replaces the outcome of the
    body (a pending [return] included). *)
Definition try_finally {A} (body : M A) (cleanup : M unit) : M A :=
  fun w =>
    let (o, w1) := body w in
    match cleanup w1 with
    | (Val _, w2) => (o, w2)
    | (Raise e, w2) => (Raise e, w2)
    | (Exit c, w2) => (Exit c, w2)
    end.

(** A method call: the callee runs in a frame of its own. *)
Definition call_method {A} (body : M A) : M A :=
  fun w =>
    let (o, w') := body (set_frame [] w) in (o, set_frame (frame w) w').

(** Assignment to a local variable, as far as [locals()] sees it. *)
Definition bind_local (name : string) : M unit :=
  fun w => (Val tt, set_frame (frame w ++ [name]) w).

(** ['name' in locals()] *)
Definition in_locals (name : string) : M bool :=
  fun w => (Val (existsb (String.eqb name) (frame w)), w).

(** Reading a local variable of the method. *)
Definition use_local (name : string) : M unit :=
  fun w =>
    if existsb (String.eqb name) (frame w) then (Val tt, w)
    else (Raise (UnboundLocalError
                   ("cannot access local variable '" +:+ name
                    +:+ "' where it is not associated with a value")), w).

(** ** The process: environment, logging, output *)

(** [os.getenv(name)] *)
Definition os_getenv (name : string) : M (option string) :=
  fun w => (Val (environ w !! name), w).

(** [os.getenv(name, default)] *)
Definition os_getenv_default (name fallback : string) : M string :=
  fun w => (Val (default fallback (environ w !! name)), w).

(** [os.environ[name] = value] *)
Definition os_setenv (name value : string) : M unit :=
  fun w => (Val tt, set_environ (<[name := value]> (environ w)) w).

(** [logger.info(msg)] and [logger.error(msg)] *)
Definition logger_info (msg : string) : M unit :=
  fun w => (Val tt, set_logs (logs w ++ [(INFO, msg)]) w).

Definition logger_error (msg : string) : M unit :=
  fun w => (Val tt, set_logs (logs w ++ [(ERROR, msg)]) w).

(** [print(line)] *)
Definition print (line : string) : M unit :=
  fun w => (Val tt, set_stdout (stdout w ++ [line]) w).

(** [uuid.uuid4()]: one draw from the randomness source. *)
Definition uuid_uuid4 : M Z :=
  fun w => (Val (uuid4_int (entropy w (draws w))), set_draws (S (draws w)) w).

(** [datetime.utcnow()] *)
Definition datetime_utcnow : M datetime :=
  fun w => (Val (utc_clock w), w).

(** ** The client libraries

    A call into [mysql.connector] or [nats] is recorded, then the oracle
    decides whether it raises; if it does not, the call has its effect on
    the collaborator. *)
Definition next_answer (s : list (option exn)) : option exn * list (option exn) :=
  match s with
  | [] => (None, [])
  | a :: rest => (a, rest)
  end.

Definition library_call {A} (ev : event) (effect : M A) : M A :=
  fun w =>
    let (answer, rest) := next_answer (script w) in
    let w1 := set_script rest (set_calls (calls w ++ [ev]) w) in
    match answer with
    | Some e => (Raise e, w1)
    | None => effect w1
    end.

(** SQL [=]: a NULL operand never compares equal; values of different
    types are taken as different (no implicit conversion, no collation). *)
Definition sql_eq (a b : atom) : bool :=
  match a, b with
  | AInt x, AInt y => x =? y
  | AStr x, AStr y => String.eqb x y
  | ADatetime x, ADatetime y =>
      (dt_year x =? dt_year y) && (dt_month x =? dt_month y) && (dt_day x =? dt_day y)
      && (dt_hour x =? dt_hour y) && (dt_minute x =? dt_minute y)
      && (dt_second x =? dt_second y) && (dt_microsecond x =? dt_microsecond y)
  | _, _ => false
  end.

(** The row of [SelectCustomerByName] and of [SelectCustomerById], with its
    column names. *)
Definition row_by_name (c : customer_row) : dict atom :=
  [("id", cust_id c); ("name", cust_name c);
   ("subscription_tier", cust_subscription_tier c)].

Definition row_by_id (c : customer_row) : dict atom :=
  [("id", cust_id c); ("name", cust_name c);
   ("subscription_tier", cust_subscription_tier c);
   ("created_at", cust_created_at c); ("updated_at", cust_updated_at c)].

(** A cursor; [dictionary=True] makes it return rows as dictionaries. *)
Record cursor := mk_cursor { cur_dictionary : bool }.

(** What [fetchone] hands back for a row. *)
Inductive fetched :=
| RowTuple (values : list atom)
| RowDict (columns : dict atom).

#[global] Instance truthy_fetched : Truthy fetched :=
  fun r => match r with RowTuple l => truthy l | RowDict d => truthy d end.

(** [mysql.connector.connect], the configuration passed as keyword
    arguments: a new session, with nothing pending. *)
Definition mysql_connect (cfg : db_config) : M unit :=
  library_call (EvDbConnect cfg)
    (fun w => (Val tt, set_uncommitted [] (set_resultset [] w))).

(** [connection.cursor(dictionary=...)] *)
Definition connection_cursor (dictionary : bool) : M cursor :=
  library_call (EvCursor dictionary) (ret (mk_cursor dictionary)).

(** [cursor.execute(query, params)].  The INSERT stays in the open
    transaction until [commit]. *)
Definition cursor_execute (q : sql) (params : list atom) : M unit :=
  library_call (EvExecute q params)
    (fun w =>
       match q, params with
       | SelectCustomerByName, [name] =>
           (Val tt, set_resultset
                      (map row_by_name
                         (List.filter (fun c => sql_eq (cust_name c) name)
                                 (corporate_customers w))) w)
       | SelectCustomerById, [id] =>
           (Val tt, set_resultset
                      (map row_by_id
                         (List.filter (fun c => sql_eq (cust_id c) id)
                                 (corporate_customers w))) w)
       | InsertTouchpoints, [id; customer_id] =>
           (Val tt, set_uncommitted
                      (uncommitted w
                       ++ [mk_touchpoints id customer_id ANone ANone ANone ANone]) w)
       | _, _ =>
           (Raise (MySQLError "Not all parameters were used in the SQL statement"), w)
       end).

(** [cursor.fetchone()] *)
Definition cursor_fetchone (cur : cursor) : M (option fetched) :=
  library_call EvFetchone
    (fun w =>
       match resultset w with
       | [] => (Val None, w)
       | row :: rest =>
           (Val (Some (if cur_dictionary cur then RowDict row
                       else RowTuple (map snd row))),
            set_resultset rest w)
       end).

(** [connection.commit()] *)
Definition connection_commit : M unit :=
  library_call EvCommit
    (fun w => (Val tt, set_touchpoints (touchpoints w ++ uncommitted w)
                         (set_uncommitted [] w))).

(** [connection.is_connected()] *)
Definition next_alive (s : list bool) : bool * list bool :=
  match s with
  | [] => (true, [])
  | b :: rest => (b, rest)
  end.

Definition connection_is_connected : M bool :=
  fun w =>
    let (b, rest) := next_alive (alive w) in
    (Val b, set_alive rest (set_calls (calls w ++ [EvIsConnected]) w)).

(** [cursor.close()] *)
Definition cursor_close : M unit :=
  library_call EvCursorClose (fun w => (Val tt, set_resultset [] w)).

(** [connection.close()]: an open transaction is rolled back. *)
Definition connection_close : M unit :=
  library_call EvConnectionClose (fun w => (Val tt, set_uncommitted [] w)).

(** [await nats.connect(url, user=..., password=...)] *)
Definition nats_connect (url user password : option string) : M unit :=
  library_call (EvNatsConnect url user password) (ret tt).

(** [await nc.publish(subject, payload)]: the message reaches the bus. *)
Definition nc_publish (subject body : string) : M unit :=
  library_call (EvNatsPublish subject body)
    (fun w => (Val tt, set_bus (bus w ++ [(subject, body)]) w)).

(** [await nc.close()] *)
Definition nc_close : M unit :=
  library_call EvNatsClose (ret tt).

(** [[x for x in xs if keep(x)]] where the test has effects. *)
Fixpoint comprehension_if {A} (keep : A -> M bool) (xs : list A) : M (list A) :=
  match xs with
  | [] => ret []
  | x :: rest =>
      b <- keep x;;
      tail <- comprehension_if keep rest;;
      ret (if b then x :: tail else tail)
  end.

(** [int(s)] *)
Definition int_of_str (s : string) : M Z :=
  match py_int s with
  | Some z => ret z
  | None => raise (ValueError ("invalid literal for int() with base 10: '" +:+ s +:+ "'"))
  end.

(** A query parameter that is an [Optional[str]]. *)
Definition str_param (o : option string) : atom :=
  match o with Some s => AStr s | None => ANone end.

(** * create_touchpoints.py *)

(** The attributes of a [TouchpointsCreator]. *)
Record TouchpointsCreator := mk_creator {
  db_config_of : db_config;
  nats_url : option string;
  nats_subject : string;
  nats_user : option string;
  nats_password : option string;
  customer_name : option string }.

Definition required_vars : list string :=
  ["DB_HOST"; "DB_NAME"; "DB_USER"; "DB_PASSWORD";
   "NATS_URL"; "NATS_USER"; "NATS_PASSWORD"; "CUSTOMER_NAME"].

(** [TouchpointsCreator._validate_env_vars] *)
Definition _validate_env_vars : M unit :=
  call_method
    (missing_vars <-
       comprehension_if
         (fun var => v <- os_getenv var;; ret (negb (truthy v)))
         required_vars;;
     if truthy missing_vars then
       logger_error ("Missing required environment variables: "
                     +:+ join ", " missing_vars);;
       sys_exit 1
     else ret tt).

(** [TouchpointsCreator.__init__] *)
Definition TouchpointsCreator_init : M TouchpointsCreator :=
  call_method
    (host <- os_getenv "DB_HOST";;
     port_text <- os_getenv_default "DB_PORT" "3306";;
     port <- int_of_str port_text;;
     database <- os_getenv "DB_NAME";;
     user <- os_getenv "DB_USER";;
     password <- os_getenv "DB_PASSWORD";;
     url <- os_getenv "NATS_URL";;
     subject <- os_getenv_default "NATS_SUBJECT" "touchpoints-created";;
     nuser <- os_getenv "NATS_USER";;
     npassword <- os_getenv "NATS_PASSWORD";;
     cname <- os_getenv "CUSTOMER_NAME";;
     _validate_env_vars;;
     ret (mk_creator
            (mk_db_config host port database user password
                          "utf8mb4" "utf8mb4_unicode_ci")
            url subject nuser npassword cname)).

(** The [finally] block shared by the three datastore methods:
    [if 'connection' in locals() and connection.is_connected():
       cursor.close(); connection.close()]. *)
Definition release_connection : M unit :=
  bound <- in_locals "connection";;
  connected <- (if bound then connection_is_connected else ret false);;
  if connected then
    use_local "cursor";;
    cursor_close;;
    connection_close
  else ret tt.

(** [TouchpointsCreator.get_customer_id] *)
Definition get_customer_id (self : TouchpointsCreator)
    (customer_name : option string) : M atom :=
  call_method
    (try_finally
       (try_except
          (mysql_connect (db_config_of self);;
           bind_local "connection";;
           cursor <- connection_cursor false;;
           bind_local "cursor";;
           cursor_execute SelectCustomerByName [str_param customer_name];;
           result <- cursor_fetchone cursor;;
           if truthy result then
             match result with
             | Some (RowTuple [customer_id; name; subscription_tier]) =>
                 logger_info ("Found customer: " +:+ py_str name
                              +:+ " (ID: " +:+ py_str customer_id
                              +:+ ", Tier: " +:+ py_str subscription_tier +:+ ")");;
                 ret customer_id
             | _ => raise (ValueError "cannot unpack the row into three values")
             end
           else
             logger_error ("Customer '" +:+ py_str (str_param customer_name)
                           +:+ "' not found in database");;
             ret ANone)
          [(is_mysql_Error,
            fun e =>
              logger_error ("Database error while looking up customer: "
                            +:+ exn_msg e);;
              ret ANone)])
       release_connection).

(** [TouchpointsCreator.create_touchpoints_record] *)
Definition create_touchpoints_record (self : TouchpointsCreator)
    (customer_id : atom) : M (option string) :=
  call_method
    (try_finally
       (try_except
          (mysql_connect (db_config_of self);;
           bind_local "connection";;
           cursor <- connection_cursor false;;
           bind_local "cursor";;
           u <- uuid_uuid4;;
           let touchpoints_id := uuid_str u in
           cursor_execute InsertTouchpoints [AStr touchpoints_id; customer_id];;
           connection_commit;;
           logger_info ("Created touchpoints record " +:+ touchpoints_id
                        +:+ " for customer " +:+ py_str customer_id);;
           ret (Some touchpoints_id))
          [(is_mysql_Error,
            fun e =>
              logger_error ("Database error while creating touchpoints record: "
                            +:+ exn_msg e);;
              ret None)])
       release_connection).

(** [if result[key]: result[key] = result[key].isoformat()] *)
Definition isoformat_column (key : string) (result : dict atom) : M (dict atom) :=
  match dict_get key result with
  | None => raise (KeyError key)
  | Some v =>
      if truthy v then
        match v with
        | ADatetime d => ret (dict_set key (AStr (isoformat d)) result)
        | _ => raise (AttributeError "object has no attribute 'isoformat'")
        end
      else ret result
  end.

(** [TouchpointsCreator.get_customer_details] *)
Definition get_customer_details (self : TouchpointsCreator)
    (customer_id : atom) : M (option (dict atom)) :=
  call_method
    (try_finally
       (try_except
          (mysql_connect (db_config_of self);;
           bind_local "connection";;
           cursor <- connection_cursor true;;
           bind_local "cursor";;
           cursor_execute SelectCustomerById [customer_id];;
           result <- cursor_fetchone cursor;;
           if truthy result then
             match result with
             | Some (RowDict row) =>
                 row1 <- isoformat_column "created_at" row;;
                 row2 <- isoformat_column "updated_at" row1;;
                 ret (Some row2)
             | _ => raise (TypeError "tuple indices must be integers or slices, not str")
             end
           else ret None)
          [(is_mysql_Error,
            fun e =>
              logger_error ("Database error while fetching customer details: "
                            +:+ exn_msg e);;
              ret None)])
       release_connection).

(** The [next_actions] of the event. *)
Definition next_actions : list string :=
  ["Schedule welcome outreach";
   "Plan technical onboarding session";
   "Set up follow-up call";
   "Arrange feedback session"].

(** The [event_payload] dictionary built by
    [publish_touchpoints_created_event]. *)
Definition event_payload (now : datetime) (touchpoints_id : string)
    (customer_details : dict atom) : pyval :=
  VDict
    [("event_type", VAtom (AStr "touchpoints-created"));
     ("timestamp", VAtom (AStr (isoformat now +:+ "Z")));
     ("touchpoints_id", VAtom (AStr touchpoints_id));
     ("customer", dict_val customer_details);
     ("touchpoints",
      VDict [("welcome_outreach", VAtom ANone);
             ("technical_onboarding", VAtom ANone);
             ("follow_up_call", VAtom ANone);
             ("feedback_session", VAtom ANone)]);
     ("next_actions", VList (map (fun s => VAtom (AStr s)) next_actions))].

(** [json.dumps(obj, indent=2).encode('utf-8')]: the text is ASCII, which
    UTF-8 leaves as it is. *)
Definition json_dumps_encode (obj : pyval) : M string :=
  match json_dumps_indent2 obj with
  | Some text => ret text
  | None => raise (TypeError "Object of type datetime is not JSON serializable")
  end.

(** [TouchpointsCreator.publish_touchpoints_created_event] *)
Definition publish_touchpoints_created_event (self : TouchpointsCreator)
    (touchpoints_id : string) (customer_details : dict atom) : M bool :=
  call_method
    (try_except
       (nats_connect (nats_url self) (nats_user self) (nats_password self);;
        bind_local "nc";;
        now <- datetime_utcnow;;
        let payload := event_payload now touchpoints_id customer_details in
        body <- json_dumps_encode payload;;
        nc_publish (nats_subject self) body;;
        logger_info ("Published " +:+ nats_subject self
                     +:+ " event for touchpoints " +:+ touchpoints_id);;
        nc_close;;
        ret true)
       [(is_nats_connection_error,
         fun e => logger_error ("NATS connection error: " +:+ exn_msg e);;
                  ret false);
        (is_Exception,
         fun e => logger_error ("Error publishing NATS event: " +:+ exn_msg e);;
                  ret false)]).

(** The value behind an [Optional] that has just been tested truthy. *)
Definition some_str (o : option string) : string := default "" o.
Definition some_dict (o : option (dict atom)) : dict atom := default [] o.

(** [TouchpointsCreator.create_touchpoints_for_customer] *)
Definition create_touchpoints_for_customer (self : TouchpointsCreator) : M bool :=
  call_method
    (logger_info ("Creating touchpoints for customer: "
                  +:+ py_str (str_param (customer_name self)));;
     (* Step 1: look up customer ID *)
     customer_id <- get_customer_id self (customer_name self);;
     if negb (truthy customer_id) then
       logger_error "Failed to find customer";;
       ret false
     else
     (* Step 2: create touchpoints record *)
     touchpoints_id <- create_touchpoints_record self customer_id;;
     if negb (truthy touchpoints_id) then
       logger_error "Failed to create touchpoints record";;
       ret false
     else
     (* Step 3: get customer details for event *)
     customer_details <- get_customer_details self customer_id;;
     if negb (truthy customer_details) then
       logger_error "Failed to fetch customer details";;
       ret false
     else
     (* Step 4: publish NATS event *)
     event_success <- publish_touchpoints_created_event self
                        (some_str touchpoints_id) (some_dict customer_details);;
     if negb (truthy event_success) then
       logger_error "Failed to publish NATS event";;
       ret false
     else
     logger_info "Successfully created touchpoints and published event";;
     ret true).

(** [main] *)
Definition main : M unit :=
  try_except
    (creator <- TouchpointsCreator_init;;
     success <- create_touchpoints_for_customer creator;;
     if truthy success then
       logger_info "Touchpoints creation completed successfully";;
       sys_exit 0
     else
       logger_error "Touchpoints creation failed";;
       sys_exit 1)
    [(is_Exception,
      fun e => logger_error ("Unexpected error: " +:+ exn_msg e);;
               sys_exit 1)].

(** The status with which the interpreter ends after running a script body:
    0 when it returns, 1 after an uncaught exception (and its traceback),
    the argument of [sys.exit] otherwise. *)
Definition exit_status {A} (o : outcome A) : Z :=
  match o with
  | Val _ => 0
  | Raise _ => 1
  | Exit code => code
  end.

(** * run_example.py *)

(** [run_example]; the two marks of the printed lines are kept as the
    bytes of their UTF-8 encoding. *)
Definition run_example : M unit :=
  os_setenv "DB_HOST" "localhost";;
  os_setenv "DB_PORT" "33006";;
  os_setenv "DB_NAME" "bassline-boogie";;
  os_setenv "DB_USER" "bassline-boogie-user";;
  os_setenv "DB_PASSWORD" "8Qd8*yZK&zIxS%!s";;
  os_setenv "NATS_SERVER" "nats://localhost:40953";;
  os_setenv "NATS_SUBJECT" "touchpoints-created";;
  os_setenv "NATS_USER" "admin";;
  os_setenv "NATS_PASSWORD" "admin";;
  os_setenv "CUSTOMER_NAME" "Example Tech Solutions";;
  print "Creating touchpoints for customer...";;
  try_except
    (creator <- TouchpointsCreator_init;;
     success <- create_touchpoints_for_customer creator;;
     if truthy success then print "✅ Touchpoints created successfully!"
     else print "❌ Failed to create touchpoints")
    [(is_Exception, fun e => print ("❌ Error: " +:+ exn_msg e))].

(** * Vocabulary of the statements *)

(** A world with empty collaborators, for examples. *)
Definition epoch : datetime := mk_datetime 1970 1 1 0 0 0 0.

Definition blank_world : world :=
  mk_world ∅ [] [] [] [] [] [] [] (fun _ => 0) 0 epoch [] [] [] [].

(** An option counts as not supplied when [os.getenv] yields a falsy value:
    [None], or the empty string. *)
Definition unset (env : gmap string string) (var : string) : bool :=
  negb (truthy (env !! var)).

(** The names that validation reports, in the order of [required_vars]. *)
Definition missing_vars (env : gmap string string) : list string :=
  List.filter (unset env) required_vars.

Definition missing_message (env : gmap string string) : string :=
  "Missing required environment variables: " +:+ join ", " (missing_vars env).

(** The creator that [__init__] builds from an environment once the port
    text has been read as [port]. *)
Definition creator_of (env : gmap string string) (port : Z) : TouchpointsCreator :=
  mk_creator
    (mk_db_config (env !! "DB_HOST") port (env !! "DB_NAME") (env !! "DB_USER")
                  (env !! "DB_PASSWORD") "utf8mb4" "utf8mb4_unicode_ci")
    (env !! "NATS_URL")
    (default "touchpoints-created" (env !! "NATS_SUBJECT"))
    (env !! "NATS_USER") (env !! "NATS_PASSWORD") (env !! "CUSTOMER_NAME").

Definition port_text (env : gmap string string) : string :=
  default "3306" (env !! "DB_PORT").

(** "At least one required option is missing from the environment". *)
Definition some_required_missing (env : gmap string string) : Prop :=
  exists var, var ∈ required_vars /\ env !! var = None.

(** "Constructing the workflow ends the process with status 1 and a log
    record that lists the missing names, without any call into a client
    library". *)
Definition constructor_rejects (w : world) : Prop :=
  exists w',
    TouchpointsCreator_init w = (Exit 1, w') /\
    logs w' = logs w ++ [(ERROR, missing_message (environ w))] /\
    calls w' = calls w.

(** An environment whose port option is not a number and in which every
    required option is missing. *)
Definition world_bad_port : world :=
  set_environ (<["DB_PORT" := "abc"]> ∅) blank_world.

(** An environment that lacks only the customer name. *)
Definition world_no_customer : world :=
  set_environ
    (list_to_map
       [("DB_HOST", "db"); ("DB_NAME", "crm"); ("DB_USER", "svc");
        ("DB_PASSWORD", "secret"); ("NATS_URL", "nats://bus:4222");
        ("NATS_USER", "svc"); ("NATS_PASSWORD", "secret")])
    blank_world.

(** The environment after the ten assignments of [run_example]. *)
Definition example_environ (env : gmap string string) : gmap string string :=
  <["CUSTOMER_NAME" := "Example Tech Solutions"]>
  (<["NATS_PASSWORD" := "admin"]>
  (<["NATS_USER" := "admin"]>
  (<["NATS_SUBJECT" := "touchpoints-created"]>
  (<["NATS_SERVER" := "nats://localhost:40953"]>
  (<["DB_PASSWORD" := "8Qd8*yZK&zIxS%!s"]>
  (<["DB_USER" := "bassline-boogie-user"]>
  (<["DB_NAME" := "bassline-boogie"]>
  (<["DB_PORT" := "33006"]>
  (<["DB_HOST" := "localhost"]> env))))))))).

(** An environment in which the datastore password is present but empty
    and everything else is supplied. *)
Definition world_empty_password : world :=
  set_environ
    (list_to_map
       [("DB_HOST", "db"); ("DB_NAME", "crm"); ("DB_USER", "svc");
        ("DB_PASSWORD", ""); ("NATS_URL", "nats://bus:4222");
        ("NATS_USER", "svc"); ("NATS_PASSWORD", "secret");
        ("CUSTOMER_NAME", "Example Tech Solutions")])
    blank_world.

(** ** Observations on the trace *)

(** Calls that can change a table: an [INSERT] or a [commit]. *)
Definition is_write (e : event) : bool :=
  match e with
  | EvExecute InsertTouchpoints _ | EvCommit => true
  | _ => false
  end.

(** Calls into the message-bus client. *)
Definition is_bus (e : event) : bool :=
  match e with
  | EvNatsConnect _ _ _ | EvNatsPublish _ _ | EvNatsClose => true
  | _ => false
  end.

(** Attempts to open a connection, to the datastore or to the bus. *)
Definition is_connect (e : event) : bool :=
  match e with
  | EvDbConnect _ | EvNatsConnect _ _ _ => true
  | _ => false
  end.

(** The client-library calls of the [try] block of each stage, in program
    order, and those of the [finally] block of the datastore stages. *)
Definition lookup_calls (self : TouchpointsCreator) (name : option string) : list event :=
  [EvDbConnect (db_config_of self); EvCursor false;
   EvExecute SelectCustomerByName [str_param name]; EvFetchone].

Definition insert_calls (self : TouchpointsCreator) (touchpoints_id : string)
    (customer_id : atom) : list event :=
  [EvDbConnect (db_config_of self); EvCursor false;
   EvExecute InsertTouchpoints [AStr touchpoints_id; customer_id]; EvCommit].

Definition details_calls (self : TouchpointsCreator) (customer_id : atom) : list event :=
  [EvDbConnect (db_config_of self); EvCursor true;
   EvExecute SelectCustomerById [customer_id]; EvFetchone].

Definition publish_calls (self : TouchpointsCreator) (body : string) : list event :=
  [EvNatsConnect (nats_url self) (nats_user self) (nats_password self);
   EvNatsPublish (nats_subject self) body; EvNatsClose].

Definition release_calls : list event :=
  [EvIsConnected; EvCursorClose; EvConnectionClose].

(** The calls of one execution of a stage: a non-empty initial part of its
    [try] block, in order, then an initial part of its [finally] block.  So
    a stage connects exactly once, first, and repeats nothing. *)
Definition stage_trace (body cleanup t : list event) : Prop :=
  exists b c, t = b ++ c /\ b `prefix_of` body /\ b <> [] /\ c `prefix_of` cleanup.

(** What no method of the creator changes. *)
Record untouched (w w' : world) : Prop := mk_untouched {
  same_environ : environ w' = environ w;
  same_customers : corporate_customers w' = corporate_customers w;
  same_entropy : entropy w' = entropy w;
  same_clock : utc_clock w' = utc_clock w;
  same_stdout : stdout w' = stdout w;
  more_logs : exists l, logs w' = logs w ++ l }.

(** The new part of the trace of a run from [w] to [w'] is [t]. *)
Definition traced (w w' : world) (t : list event) : Prop :=
  calls w' = calls w ++ t.

(** The [finally] block changes neither table nor the bus, and makes an
    initial part of its three calls. *)
Definition release_post (w : world) (o : outcome unit) (w' : world) : Prop :=
  untouched w w' /\
  touchpoints w' = touchpoints w /\ bus w' = bus w /\ draws w' = draws w /\
  (exists c, traced w w' c /\ c `prefix_of` release_calls) /\
  (forall c, o <> Exit c).

(** What the [try] block of a datastore method guarantees, and what the
    method guarantees as a whole.  [X] is the part that differs between the
    methods: a condition on the outcome, the [touchpoints] table and the
    number of random draws at the end. *)
Definition try_post {A} `{Truthy A} (body : list event)
    (X : outcome A -> list touchpoints_row -> nat -> Prop)
    (w : world) (o : outcome A) (w' : world) : Prop :=
  untouched w w' /\
  bus w' = bus w /\
  (exists b, traced w w' b /\ b `prefix_of` body /\ b <> [] /\
             (forall a, o = Val a -> truthy a = true -> b = body)) /\
  (forall c, o <> Exit c) /\
  X o (touchpoints w') (draws w').

Definition method_post {A} `{Truthy A} (body : list event)
    (X : outcome A -> list touchpoints_row -> nat -> Prop)
    (w : world) (o : outcome A) (w' : world) : Prop :=
  untouched w w' /\
  frame w' = frame w /\
  bus w' = bus w /\
  (exists t, traced w w' t /\ stage_trace body release_calls t /\
             (forall a, o = Val a -> truthy a = true ->
                        exists c, t = body ++ c /\ c `prefix_of` release_calls)) /\
  (forall c, o <> Exit c) /\
  X o (touchpoints w') (draws w').

(** The table and the randomness source are as in [w]. *)
Definition reads_only {A} (w : world) (_ : outcome A)
    (table : list touchpoints_row) (drawn : nat) : Prop :=
  table = touchpoints w /\ drawn = draws w.

(** The identifier that the next [uuid.uuid4()] of world [w] produces, and
    the record that the insert stage then writes. *)
Definition next_touchpoints_id (w : world) : string :=
  uuid_str (uuid4_int (entropy w (draws w))).

Definition new_record (touchpoints_id : string) (customer_id : atom) : touchpoints_row :=
  mk_touchpoints (AStr touchpoints_id) customer_id ANone ANone ANone ANone.

(** The insert stage: the table gains at most the new record, and exactly
    the new record when the stage returns an identifier; one draw is made
    for it. *)
Definition inserts_one (customer_id : atom) (w : world)
    (o : outcome (option string)) (table : list touchpoints_row) (drawn : nat) : Prop :=
  let row := new_record (next_touchpoints_id w) customer_id in
  (table = touchpoints w \/ table = touchpoints w ++ [row]) /\
  (drawn = draws w \/ drawn = S (draws w)) /\
  (forall r, o = Val r -> r = None \/ r = Some (next_touchpoints_id w)) /\
  (forall tid, o = Val (Some tid) ->
               table = touchpoints w ++ [row] /\ drawn = S (draws w)) /\
  (o = Val None -> table = touchpoints w).

(** The text of the message that the publish stage sends from world [w]. *)
Definition message_text (w : world) (touchpoints_id : string)
    (customer_details : dict atom) : option string :=
  json_dumps_indent2 (event_payload (utc_clock w) touchpoints_id customer_details).

(** The publish stage: it always returns a boolean, touches no table, and
    delivers at most its one message, which it has delivered when it
    returns [True]. *)
Definition publish_post (self : TouchpointsCreator) (touchpoints_id : string)
    (customer_details : dict atom) (w : world) (o : outcome bool) (w' : world) : Prop :=
  let text := message_text w touchpoints_id customer_details in
  untouched w w' /\
  frame w' = frame w /\
  touchpoints w' = touchpoints w /\ draws w' = draws w /\
  (exists b, o = Val b) /\
  (exists t, traced w w' t /\
             stage_trace (publish_calls self (default "" text)) [] t) /\
  (bus w' = bus w \/
   exists body, text = Some body /\ bus w' = bus w ++ [(nats_subject self, body)]) /\
  (o = Val true ->
   exists body, text = Some body /\ bus w' = bus w ++ [(nats_subject self, body)] /\
                traced w w' (publish_calls self body)).

(** ** The workflow seen from outside *)

(** The world in which the first stage starts, and the one the workflow
    leaves after a last log record: the method runs in a frame of its own
    and logs one line before the lookup. *)
Definition workflow_entry (self : TouchpointsCreator) (w : world) : world :=
  set_logs (logs w ++ [(INFO, "Creating touchpoints for customer: "
                              +:+ py_str (str_param (customer_name self)))])
           (set_frame [] w).

Definition workflow_exit (w : world) (record : level * string) (w_last : world) : world :=
  set_frame (frame w) (set_logs (logs w_last ++ [record]) w_last).

(** How far a run got: a stage returned a failure signal, all four
    succeeded, or an exception (or exit) left a stage.  The world is the one
    in which that stage ended. *)
Inductive progress :=
| StoppedAt (stage : nat) (w : world)
| Completed (w : world)
| RaisedIn (stage : nat) (e : exn) (w : world)
| ExitedIn (stage : nat) (code : Z) (w : world).

(** Follows the specification: the stages in sequence 1, 2, 3, 4, each fed
    from the results of the earlier ones, stopping at the first whose result
    signals failure. *)
Definition stop_at_first_failure (self : TouchpointsCreator) (w : world) : progress :=
  match get_customer_id self (customer_name self) (workflow_entry self w) with
  | (Raise e, w1) => RaisedIn 1 e w1
  | (Exit c, w1) => ExitedIn 1 c w1
  | (Val customer_id, w1) =>
  if negb (truthy customer_id) then StoppedAt 1 w1 else
  match create_touchpoints_record self customer_id w1 with
  | (Raise e, w2) => RaisedIn 2 e w2
  | (Exit c, w2) => ExitedIn 2 c w2
  | (Val touchpoints_id, w2) =>
  if negb (truthy touchpoints_id) then StoppedAt 2 w2 else
  match get_customer_details self customer_id w2 with
  | (Raise e, w3) => RaisedIn 3 e w3
  | (Exit c, w3) => ExitedIn 3 c w3
  | (Val customer_details, w3) =>
  if negb (truthy customer_details) then StoppedAt 3 w3 else
  match publish_touchpoints_created_event self (some_str touchpoints_id)
          (some_dict customer_details) w3 with
  | (Raise e, w4) => RaisedIn 4 e w4
  | (Exit c, w4) => ExitedIn 4 c w4
  | (Val event_success, w4) =>
  if negb (truthy event_success) then StoppedAt 4 w4 else Completed w4
  end end end end.

Definition failure_record (stage : nat) : level * string :=
  (ERROR,
   match stage with
   | 1%nat => "Failed to find customer"
   | 2%nat => "Failed to create touchpoints record"
   | 3%nat => "Failed to fetch customer details"
   | _ => "Failed to publish NATS event"
   end).

(** What the workflow returns, and the world it leaves, for each way a run
    can go. *)
Definition conclude (w : world) (p : progress) : outcome bool * world :=
  match p with
  | StoppedAt stage w_stage => (Val false, workflow_exit w (failure_record stage) w_stage)
  | Completed w4 =>
      (Val true,
       workflow_exit w (INFO, "Successfully created touchpoints and published event") w4)
  | RaisedIn _ e w_stage => (Raise e, set_frame (frame w) w_stage)
  | ExitedIn _ c w_stage => (Exit c, set_frame (frame w) w_stage)
  end.

(** The number of stages that were entered. *)
Definition stages_entered (p : progress) : nat :=
  match p with
  | StoppedAt stage _ | RaisedIn stage _ _ | ExitedIn stage _ _ => stage
  | Completed _ => 4
  end.

(** The collaborator that a connection attempt addresses. *)
Inductive collaborator := Datastore | Bus.

Definition connect_kind (e : event) : option collaborator :=
  match e with
  | EvDbConnect _ => Some Datastore
  | EvNatsConnect _ _ _ => Some Bus
  | _ => None
  end.

(** The connection attempts of a trace, and its SQL statements, in order. *)
Definition connects (t : list event) : list collaborator := omap connect_kind t.

Definition statement_of (e : event) : option sql :=
  match e with EvExecute q _ => Some q | _ => None end.

Definition statements (t : list event) : list sql := omap statement_of t.

(** One connection per stage: datastore, datastore, datastore, bus. *)
Definition stage_connects : list collaborator := [Datastore; Datastore; Datastore; Bus].

Definition stage_statements : list sql :=
  [SelectCustomerByName; InsertTouchpoints; SelectCustomerById].

(** What one run of a stage shows on the outside: it does not exit the
    process, it restores the frame, it connects once to collaborator [k],
    it executes at most the statement [q] (and has executed it when its
    result is truthy), and all its calls satisfy [P]. *)
Definition stage_summary {A} `{Truthy A} (k : collaborator) (qs : list sql)
    (P : event -> Prop) (w : world) (o : outcome A) (w' : world) : Prop :=
  untouched w w' /\
  frame w' = frame w /\
  (forall c, o <> Exit c) /\
  exists t, traced w w' t /\
            connects t = [k] /\
            statements t `prefix_of` qs /\
            Forall P t /\
            (forall a, o = Val a -> truthy a = true -> statements t = qs).

(** ** Example worlds *)

Definition demo_creator : TouchpointsCreator :=
  mk_creator
    (mk_db_config (Some "db") 3306 (Some "crm") (Some "svc") (Some "secret")
                  "utf8mb4" "utf8mb4_unicode_ci")
    (Some "nats://bus:4222") "touchpoints-created" (Some "svc") (Some "secret")
    (Some "Example Tech Solutions").

Definition demo_customer : customer_row :=
  mk_customer (AStr "c-1") (AStr "Example Tech Solutions") (AStr "enterprise")
              (ADatetime (mk_datetime 2024 1 2 3 4 5 0)) ANone.

(** A datastore that holds the demo customer; the oracle answers [script]. *)
Definition demo_world (answers : list (option exn)) : world :=
  mk_world ∅ [demo_customer] [] [] [] [] answers []
           (fun n => nth n [0x0123456789abcdef0123456789abcdef;
                            0xfedcba9876543210fedcba9876543210] 0) 0
           (mk_datetime 2025 12 31 23 59 58 1234) [] [] [] [].

(** The three datastore stages make eighteen library calls that the oracle
    answers; the nineteenth is the connection to the bus. *)
Definition world_bus_down : world :=
  demo_world (replicate 18 None ++ [Some (NatsTimeoutError "timeout")]).

(** The oracle lets the next [n] client-library calls go well. *)
Definition well (n : nat) (answers : list (option exn)) : Prop :=
  Forall (fun a => a = None) (take n answers).

(** The rows that [SelectCustomerByName] finds for the customer of [self]. *)
Definition matching_customers (self : TouchpointsCreator) (w : world) : list customer_row :=
  List.filter (fun c => sql_eq (cust_name c) (str_param (customer_name self)))
              (corporate_customers w).

(** A datastore whose only customer has the identifier 0. *)
Definition world_zero_id : world :=
  mk_world ∅
    [mk_customer (AInt 0) (AStr "Example Tech Solutions") (AStr "enterprise")
                 ANone ANone]
    [] [] [] [] [] [] (fun _ => 0) 0 epoch [] [] [] [].

(** ** The text of a version-4 UUID *)

Definition is_hex (c : ascii) : bool :=
  let n := nat_of_ascii c in
  (((48 <=? n) && (n <=? 57)) || ((97 <=? n) && (n <=? 102)))%nat.

Definition is_dash (c : ascii) : bool := Ascii.eqb c "-".

Definition is_four (c : ascii) : bool := Ascii.eqb c "4".

(** The first digit of the fourth group carries the variant bits 1, 0. *)
Definition is_variant (c : ascii) : bool :=
  Ascii.eqb c "8" || Ascii.eqb c "9" || Ascii.eqb c "a" || Ascii.eqb c "b".

(** A string conforms to a shape when it has one character per class of
    the shape, each in its class. *)
Fixpoint conforms (shape : list (ascii -> bool)) (s : string) : bool :=
  match shape, s with
  | [], EmptyString => true
  | cls :: shape', String c s' => cls c && conforms shape' s'
  | _, _ => false
  end.

(** xxxxxxxx-xxxx-4xxx-yxxx-xxxxxxxxxxxx *)
Definition uuid4_shape : list (ascii -> bool) :=
  replicate 8 is_hex ++ [is_dash] ++ replicate 4 is_hex ++ [is_dash]
  ++ [is_four] ++ replicate 3 is_hex ++ [is_dash]
  ++ [is_variant] ++ replicate 3 is_hex ++ [is_dash] ++ replicate 12 is_hex.

Definition is_uuid4_text (s : string) : bool := conforms uuid4_shape s.

(** The six bit positions that version 4 fixes. *)
Definition fixed_bit (i : Z) : bool :=
  (i =? 62) || (i =? 63) || ((76 <=? i) && (i <=? 79)).

(** ** The text of a UTC timestamp *)

Definition is_char (expected : ascii) (c : ascii) : bool := Ascii.eqb c expected.

(** YYYY-MM-DDTHH:MM:SS, with a fraction of six digits or none. *)
Definition iso_shape (fraction : bool) : list (ascii -> bool) :=
  replicate 4 is_digit ++ [is_char "-"] ++ replicate 2 is_digit ++ [is_char "-"]
  ++ replicate 2 is_digit ++ [is_char "T"]
  ++ replicate 2 is_digit ++ [is_char ":"] ++ replicate 2 is_digit ++ [is_char ":"]
  ++ replicate 2 is_digit
  ++ (if fraction then [is_char "."] ++ replicate 6 is_digit else []).

(** An ISO-8601 date and time followed by the UTC designator [Z]. *)
Definition is_utc_timestamp (s : string) : bool :=
  conforms (iso_shape false ++ [is_char "Z"]) s
  || conforms (iso_shape true ++ [is_char "Z"]) s.

(** "All four stages succeed": the constructor returns a creator and the
    run of the workflow from there is completed. *)
Definition all_stages_succeed (w : world) : Prop :=
  exists self w0 w4,
    TouchpointsCreator_init w = (Val self, w0) /\
    stop_at_first_failure self w0 = Completed w4.

(** An environment that supplies every required option. *)
Definition full_environ : gmap string string :=
  list_to_map
    [("DB_HOST", "db"); ("DB_NAME", "crm"); ("DB_USER", "svc");
     ("DB_PASSWORD", "secret"); ("NATS_URL", "nats://bus:4222");
     ("NATS_USER", "svc"); ("NATS_PASSWORD", "secret");
     ("CUSTOMER_NAME", "Example Tech Solutions")].

(** A world in which everything is in place for a successful run. *)
Definition full_world : world := set_environ full_environ (demo_world []).

(** ** Reading the monad as a predicate transformer *)

(** [wp m w Q]: running [m] from [w] ends in an outcome and a world that
    satisfy [Q]. *)
Definition wp {A} (m : M A) (w : world) (Q : outcome A -> world -> Prop) : Prop :=
  Q (fst (m w)) (snd (m w)).

(** The continuation of a [bind], [try] or [finally] sees the outcome. *)
Definition after {A B} (k : A -> world -> Prop) (Q : outcome B -> world -> Prop)
    (o : outcome A) (w : world) : Prop :=
  match o with
  | Val a => k a w
  | Raise e => Q (Raise e) w
  | Exit c => Q (Exit c) w
  end.

(** ** Further vocabulary *)

(** Every required option has a non-empty value. *)
Definition all_supplied (env : gmap string string) : Prop :=
  forall var, var ∈ required_vars -> exists s, env !! var = Some s /\ s <> "".

(** What the details stage makes of a timestamp column: a datetime becomes
    its ISO text, a falsy value stays, anything else has no [isoformat]. *)
Definition iso_column (a : atom) : option atom :=
  if truthy a then
    match a with
    | ADatetime d => Some (AStr (isoformat d))
    | _ => None
    end
  else Some a.

(** The snapshot of a customer row whose timestamps are [created] and
    [updated] after conversion. *)
Definition snapshot (c : customer_row) (created updated : atom) : dict atom :=
  [("id", cust_id c); ("name", cust_name c);
   ("subscription_tier", cust_subscription_tier c);
   ("created_at", created); ("updated_at", updated)].

(** The rows that [SelectCustomerById] finds. *)
Definition customers_with_id (customer_id : atom) (w : world) : list customer_row :=
  List.filter (fun c => sql_eq (cust_id c) customer_id) (corporate_customers w).



(** The rows that [SelectCustomerByName] finds for [name]. *)
Definition customers_with_name (name : option string) (w : world) : list customer_row :=
  List.filter (fun c => sql_eq (cust_name c) (str_param name)) (corporate_customers w).

(** The log record of a lookup whose statement found [rows]. *)
Definition lookup_record (name : option string) (rows : list customer_row) : level * string :=
  match rows with
  | c :: _ =>
      (INFO, "Found customer: " +:+ py_str (cust_name c)
             +:+ " (ID: " +:+ py_str (cust_id c)
             +:+ ", Tier: " +:+ py_str (cust_subscription_tier c) +:+ ")")
  | [] =>
      (ERROR, "Customer '" +:+ py_str (str_param name) +:+ "' not found in database")
  end.

(** The identifier that a lookup returns when its statement found [rows]. *)
Definition lookup_value (rows : list customer_row) : atom :=
  match rows with
  | c :: _ => cust_id c
  | [] => ANone
  end.

(** The outcome of the details stage when its statement found [rows]. *)
Definition details_value (rows : list customer_row) : outcome (option (dict atom)) :=
  match rows with
  | [] => Val None
  | c :: _ =>
      match iso_column (cust_created_at c), iso_column (cust_updated_at c) with
      | Some created, Some updated => Val (Some (snapshot c created updated))
      | _, _ => Raise (AttributeError "object has no attribute 'isoformat'")
      end
  end.

(** Values that [json.dumps] refuses. *)
Definition is_datetime (a : atom) : bool :=
  match a with ADatetime _ => true | _ => false end.

Definition holds_datetime (d : dict atom) : bool :=
  existsb (fun kv => is_datetime (snd kv)) d.

(** The log record of the publish stage for an exception [e] raised in its
    [try] block. *)
Definition publish_error_record (e : exn) : level * string :=
  (ERROR,
   (if is_nats_connection_error e then "NATS connection error: "
    else "Error publishing NATS event: ") +:+ exn_msg e).

(** What a run of the workflow from [w] can have left in [w']: nothing, or
    one record, or one record and one message that names it. *)
Definition at_most_once (self : TouchpointsCreator) (w w' : world) : Prop :=
  (touchpoints w' = touchpoints w /\ bus w' = bus w) \/
  exists tid cid,
    touchpoints w' = touchpoints w ++ [new_record tid cid] /\
    (bus w' = bus w \/
     exists details body,
       json_dumps_indent2 (event_payload (utc_clock w) tid details) = Some body /\
       bus w' = bus w ++ [(nats_subject self, body)]).

(** The creator that [run_example] constructs when the environment supplies
    [url] as NATS_URL. *)
Definition example_creator (url : string) : TouchpointsCreator :=
  mk_creator
    (mk_db_config (Some "localhost") 33006 (Some "bassline-boogie")
                  (Some "bassline-boogie-user") (Some "8Qd8*yZK&zIxS%!s")
                  "utf8mb4" "utf8mb4_unicode_ci")
    (Some url) "touchpoints-created" (Some "admin") (Some "admin")
    (Some "Example Tech Solutions").

(** The world in which [run_example] constructs the creator. *)
Definition example_entry (w : world) : world :=
  set_stdout (stdout w ++ ["Creating touchpoints for customer..."])
    (set_environ (example_environ (environ w)) w).

(** The line that [run_example] prints for an outcome of the workflow. *)
Definition example_line (o : outcome bool) : string :=
  match o with
  | Val true => "✅ Touchpoints created successfully!"
  | Val false => "❌ Failed to create touchpoints"
  | Raise e => "❌ Error: " +:+ exn_msg e
  | Exit _ => ""
  end.

(** The last log record of [main] after a workflow that returned [b]. *)
Definition main_record (b : bool) : level * string :=
  if b then (INFO, "Touchpoints creation completed successfully")
  else (ERROR, "Touchpoints creation failed").

(** * Properties *)

(** ** Running the monad *)

Lemma bind_val {A B} (m : M A) (k : A -> M B) w a w1 :
  m w = (Val a, w1) -> bind m k w = k a w1.
Proof. unfold bind. by intros ->. Qed.

Lemma bind_raise {A B} (m : M A) (k : A -> M B) w e w1 :
  m w = (Raise e, w1) -> bind m k w = (Raise e, w1).
Proof. unfold bind. by intros ->. Qed.

Lemma bind_exit {A B} (m : M A) (k : A -> M B) w c w1 :
  m w = (Exit c, w1) -> bind m k w = (Exit c, w1).
Proof. unfold bind. by intros ->. Qed.

(** ** Worlds up to the frame

    A method call restores the caller's frame, so a method that changes
    nothing but the log leaves a world that differs from the one it got in
    its [logs] only. *)

Lemma set_frame_same w : set_frame (frame w) w = w.
Proof. by destruct w. Qed.

Lemma set_frame_set_logs f l w :
  set_frame f (set_logs l (set_frame [] w)) = set_logs l (set_frame f w).
Proof. by destruct w. Qed.

(** ** Configuration *)

Lemma unset_spec env var :
  unset env var = true <-> env !! var = None \/ env !! var = Some "".
Proof.
  unfold unset. destruct (env !! var) as [s|] eqn:E; cbn.
  - unfold truthy, truthy_str. destruct s as [|c s]; cbn.
    + split; [by right | done].
    + split; [done | intros [?|?]; congruence].
  - split; [by left | done].
Qed.

Lemma elem_of_missing_vars env var :
  var ∈ missing_vars env <->
  var ∈ required_vars /\ (env !! var = None \/ env !! var = Some "").
Proof.
  unfold missing_vars. rewrite !list_elem_of_In, filter_In, unset_spec.
  reflexivity.
Qed.

Lemma comprehension_getenv xs w :
  comprehension_if (fun var => v <- os_getenv var;; ret (negb (truthy v))) xs w
  = (Val (List.filter (unset (environ w)) xs), w).
Proof.
  induction xs as [|x xs IH]; [done|].
  cbn [comprehension_if].
  rewrite (bind_val _ _ w (unset (environ w) x) w) by reflexivity.
  rewrite (bind_val _ _ _ _ _ IH). unfold ret. cbn [List.filter].
  by destruct (unset (environ w) x).
Qed.

(** What [_validate_env_vars] does, as one equation. *)
Lemma validate_env_vars_run w :
  _validate_env_vars w =
  if truthy (missing_vars (environ w))
  then (Exit 1, set_logs (logs w ++ [(ERROR, missing_message (environ w))]) w)
  else (Val tt, w).
Proof.
  unfold _validate_env_vars, call_method.
  rewrite (bind_val _ _ _ _ _ (comprehension_getenv _ _)).
  cbn [environ set_frame]. change (environ (set_frame [] w)) with (environ w).
  fold (missing_vars (environ w)).
  destruct (truthy (missing_vars (environ w))).
  - erewrite bind_val by reflexivity. unfold sys_exit.
    by destruct w.
  - by destruct w.
Qed.

(** What [__init__] does, as one equation: the port is parsed first, the
    required options are checked after that. *)
Lemma init_run w :
  TouchpointsCreator_init w =
  match py_int (port_text (environ w)) with
  | None =>
      (Raise (ValueError ("invalid literal for int() with base 10: '"
                          +:+ port_text (environ w) +:+ "'")), w)
  | Some port =>
      if truthy (missing_vars (environ w))
      then (Exit 1, set_logs (logs w ++ [(ERROR, missing_message (environ w))]) w)
      else (Val (creator_of (environ w) port), w)
  end.
Proof.
  unfold TouchpointsCreator_init, call_method.
  do 2 (erewrite bind_val by reflexivity).
  unfold int_of_str. change (environ (set_frame [] w)) with (environ w).
  fold (port_text (environ w)).
  destruct (py_int (port_text (environ w))) as [port|].
  - do 9 (erewrite bind_val by reflexivity).
    unfold bind at 1. rewrite validate_env_vars_run.
    change (environ (set_frame [] w)) with (environ w).
    destruct (truthy (missing_vars (environ w))); by destruct w.
  - erewrite bind_raise by reflexivity. by destruct w.
Qed.

(** The reported names are exactly the required ones whose value is absent
    or empty; in particular an absent one is always among them. *)
Lemma missing_vars_absent env var :
  var ∈ required_vars -> env !! var = None -> var ∈ missing_vars env.
Proof. intros. apply elem_of_missing_vars. auto. Qed.

Lemma truthy_nonempty {A} (l : list A) x : x ∈ l -> truthy l = true.
Proof. by destruct 1. Qed.




Lemma unset_delete_empty env var x :
  env !! var = Some "" -> unset (delete var env) x = unset env x.
Proof.
  intros Hempty. unfold unset. destruct (decide (var = x)) as [->|Hne].
  - by rewrite lookup_delete_eq, Hempty.
  - by rewrite lookup_delete_ne.
Qed.

Lemma missing_vars_delete_empty env var :
  env !! var = Some "" -> missing_vars (delete var env) = missing_vars env.
Proof.
  intros Hempty. unfold missing_vars. apply filter_ext.
  intros x. by apply unset_delete_empty.
Qed.

(** C9: a required option whose value is the empty string is handled like
    an absent one.  It is listed, validation exits with status 1, and both
    the listing and the outcome are those obtained from the environment
    with the option removed. *)
Theorem empty_value_counts_as_absent w var :
  var ∈ required_vars ->
  environ w !! var = Some "" ->
  var ∈ missing_vars (environ w) /\
  missing_vars (environ w) = missing_vars (delete var (environ w)) /\
  _validate_env_vars w
  = (Exit 1, set_logs (logs w ++ [(ERROR, missing_message (environ w))]) w) /\
  _validate_env_vars (set_environ (delete var (environ w)) w)
  = (Exit 1, set_logs (logs w ++ [(ERROR, missing_message (environ w))])
               (set_environ (delete var (environ w)) w)) /\
  exit_status (fst (_validate_env_vars w)) = 1.
Proof.
  intros Hreq Hempty.
  assert (Hin : var ∈ missing_vars (environ w)).
  { apply elem_of_missing_vars. auto. }
  assert (Hrun : _validate_env_vars w
    = (Exit 1, set_logs (logs w ++ [(ERROR, missing_message (environ w))]) w)).
  { by rewrite validate_env_vars_run, (truthy_nonempty _ _ Hin). }
  repeat split; [done | by rewrite missing_vars_delete_empty | done | | by rewrite Hrun].
  rewrite validate_env_vars_run.
  change (environ (set_environ (delete var (environ w)) w))
    with (delete var (environ w)).
  unfold missing_message.
  rewrite (missing_vars_delete_empty _ _ Hempty), (truthy_nonempty _ _ Hin).
  reflexivity.
Qed.

Lemma empty_value_counts_as_absent_witness :
  "DB_PASSWORD" ∈ missing_vars (environ world_empty_password).
Proof.
  apply (empty_value_counts_as_absent world_empty_password "DB_PASSWORD").
  - apply list_elem_of_In. cbn. tauto.
  - reflexivity.
Defined.

(** ** The demo wrapper *)

Ltac lookup_example :=
  unfold example_environ;
  repeat (rewrite lookup_insert_ne by discriminate);
  try rewrite lookup_insert_eq.

Lemma unset_supplied env var s :
  env !! var = Some s -> s <> "" -> unset env var = false.
Proof.
  intros Hget Hne. unfold unset. rewrite Hget. cbn.
  unfold truthy, truthy_str. by destruct s.
Qed.

Ltac supplied var value :=
  rewrite (unset_supplied _ var value) by (try discriminate; by lookup_example).

(** The assignments of the wrapper supply every required option except the
    bus URL, which keeps whatever the environment had. *)
Lemma missing_vars_example env :
  missing_vars (example_environ env)
  = if unset env "NATS_URL" then ["NATS_URL"] else [].
Proof.
  assert (Hurl : unset (example_environ env) "NATS_URL" = unset env "NATS_URL").
  { unfold unset. by lookup_example. }
  unfold missing_vars, required_vars. cbn [List.filter]. rewrite Hurl.
  supplied "DB_HOST" "localhost".
  supplied "DB_NAME" "bassline-boogie".
  supplied "DB_USER" "bassline-boogie-user".
  supplied "DB_PASSWORD" "8Qd8*yZK&zIxS%!s".
  supplied "NATS_USER" "admin".
  supplied "NATS_PASSWORD" "admin".
  supplied "CUSTOMER_NAME" "Example Tech Solutions".
  reflexivity.
Qed.

(** The world in which the wrapper constructs the creator. *)
Lemma run_example_run w :
  run_example w =
  try_except
    (creator <- TouchpointsCreator_init;;
     success <- create_touchpoints_for_customer creator;;
     if truthy success then print "✅ Touchpoints created successfully!"
     else print "❌ Failed to create touchpoints")
    [(is_Exception, fun e => print ("❌ Error: " +:+ exn_msg e))]
    (set_stdout (stdout w ++ ["Creating touchpoints for customer..."])
       (set_environ (example_environ (environ w)) w)).
Proof.
  unfold run_example. do 11 (erewrite bind_val by reflexivity). reflexivity.
Qed.

(** C8: the wrapper stores the bus URL under NATS_SERVER, the constructor
    reads NATS_URL.  Started in an environment without NATS_URL, the wrapper
    ends in validation: exit status 1, one ERROR record naming NATS_URL (and
    nothing else) as missing, no client-library call; and the listing stays
    the same whatever value NATS_SERVER is given. *)
Theorem run_example_misses_NATS_URL w :
  environ w !! "NATS_URL" = None ->
  exists w',
    run_example w = (Exit 1, w') /\
    exit_status (fst (run_example w)) = 1 /\
    logs w' = logs w ++ [(ERROR, "Missing required environment variables: NATS_URL")] /\
    calls w' = calls w /\
    environ w' !! "NATS_SERVER" = Some "nats://localhost:40953" /\
    environ w' !! "NATS_URL" = None /\
    "NATS_URL" ∈ missing_vars (environ w') /\
    (forall value, missing_vars (<["NATS_SERVER" := value]> (environ w'))
                   = ["NATS_URL"]).
Proof.
  intros Hurl.
  assert (Hmiss : missing_vars (example_environ (environ w)) = ["NATS_URL"]).
  { rewrite missing_vars_example. unfold unset. by rewrite Hurl. }
  assert (Hrun : run_example w
    = (Exit 1,
       set_logs (logs w ++ [(ERROR, "Missing required environment variables: NATS_URL")])
         (set_stdout (stdout w ++ ["Creating touchpoints for customer..."])
            (set_environ (example_environ (environ w)) w)))).
  { rewrite run_example_run. unfold try_except.
    erewrite bind_exit; [reflexivity|].
    rewrite init_run. cbn [environ set_stdout set_environ].
    replace (py_int (port_text (example_environ (environ w)))) with (Some 33006).
    - unfold missing_message. rewrite Hmiss. reflexivity.
    - unfold port_text. by lookup_example. }
  eexists. split; [exact Hrun|]. rewrite Hrun.
  cbn [fst exit_status logs calls environ set_logs set_stdout set_environ].
  repeat split.
  - by lookup_example.
  - lookup_example. exact Hurl.
  - rewrite Hmiss. by left.
  - intros value. unfold missing_vars. rewrite <- Hmiss. unfold missing_vars.
    apply filter_ext_in. intros x Hx. unfold unset.
    rewrite lookup_insert_ne; [reflexivity|].
    intros <-. cbn in Hx. intuition discriminate.
Qed.

Lemma run_example_misses_NATS_URL_witness :
  exists w', run_example blank_world = (Exit 1, w').
Proof.
  destruct (run_example_misses_NATS_URL blank_world) as (w' & Hrun & _).
  - reflexivity.
  - exists w'. exact Hrun.
Defined.

(** ** A weakest-precondition reading of the monad *)

Lemma wp_run {A} (m : M A) w Q o w' : wp m w Q -> m w = (o, w') -> Q o w'.
Proof. unfold wp. intros HQ E. by rewrite E in HQ. Qed.

Lemma wp_intro {A} (m : M A) w (Q : outcome A -> world -> Prop) :
  (forall o w', m w = (o, w') -> Q o w') -> wp m w Q.
Proof. unfold wp. intros H. apply H. apply surjective_pairing. Qed.

Lemma wp_mono {A} (m : M A) w (Q Q' : outcome A -> world -> Prop) :
  wp m w Q -> (forall o w', Q o w' -> Q' o w') -> wp m w Q'.
Proof. unfold wp. auto. Qed.

Lemma wp_ret {A} (a : A) w (Q : outcome A -> world -> Prop) :
  Q (Val a) w -> wp (ret a) w Q.
Proof. done. Qed.

Lemma wp_raise {A} e w (Q : outcome A -> world -> Prop) :
  Q (Raise e) w -> wp (raise e) w Q.
Proof. done. Qed.

Lemma wp_sys_exit {A} c w (Q : outcome A -> world -> Prop) :
  Q (Exit c) w -> wp (sys_exit c) w Q.
Proof. done. Qed.

Lemma wp_bind {A B} (m : M A) (k : A -> M B) w (Q : outcome B -> world -> Prop) :
  wp m w (after (fun a w1 => wp (k a) w1 Q) Q) -> wp (bind m k) w Q.
Proof.
  unfold wp, bind, after. destruct (m w) as [[a|e|c] w1]; cbn; done.
Qed.

Lemma wp_try_except {A} (body : M A) cs w (Q : outcome A -> world -> Prop) :
  wp body w (fun o w1 =>
               match o with
               | Raise e => wp (dispatch cs e) w1 Q
               | _ => Q o w1
               end) ->
  wp (try_except body cs) w Q.
Proof.
  unfold wp, try_except. destruct (body w) as [[a|e|c] w1]; cbn; done.
Qed.

Lemma wp_dispatch_nil {A} e w (Q : outcome A -> world -> Prop) :
  Q (Raise e) w -> wp (dispatch [] e) w Q.
Proof. done. Qed.

Lemma wp_dispatch_cons {A} catches handler (cs : clauses A) e w
    (Q : outcome A -> world -> Prop) :
  (catches e = true -> wp (handler e) w Q) ->
  (catches e = false -> wp (dispatch cs e) w Q) ->
  wp (dispatch ((catches, handler) :: cs) e) w Q.
Proof. cbn. destruct (catches e); auto. Qed.

Lemma wp_try_finally {A} (body : M A) cleanup w (Q : outcome A -> world -> Prop) :
  wp body w (fun o w1 => wp cleanup w1 (after (fun _ w2 => Q o w2) Q)) ->
  wp (try_finally body cleanup) w Q.
Proof.
  unfold wp, try_finally, after.
  destruct (body w) as [o w1]. cbn.
  destruct (cleanup w1) as [[[]|e|c] w2]; cbn; done.
Qed.

Lemma wp_call_method {A} (body : M A) w (Q : outcome A -> world -> Prop) :
  wp body (set_frame [] w) (fun o w' => Q o (set_frame (frame w) w')) ->
  wp (call_method body) w Q.
Proof.
  unfold wp, call_method. by destruct (body (set_frame [] w)).
Qed.

(** A client-library call, whatever the oracle answers. *)
Lemma wp_library_call {A} ev (effect : M A) w (Q : outcome A -> world -> Prop) :
  (forall rest, wp effect (set_script rest (set_calls (calls w ++ [ev]) w)) Q) ->
  (forall e rest, Q (Raise e) (set_script rest (set_calls (calls w ++ [ev]) w))) ->
  wp (library_call ev effect) w Q.
Proof.
  intros Hgo Hraise. unfold wp, library_call.
  destruct (next_answer (script w)) as [[e|] rest]; cbn.
  - apply Hraise.
  - apply Hgo.
Qed.

Lemma wp_is_connected w (Q : outcome bool -> world -> Prop) :
  (forall b rest,
      Q (Val b) (set_alive rest (set_calls (calls w ++ [EvIsConnected]) w))) ->
  wp connection_is_connected w Q.
Proof.
  intros HQ. unfold wp, connection_is_connected.
  destruct (next_alive (alive w)). apply HQ.
Qed.

(** Using an established specification of a method inside a caller. *)
Lemma wp_bind_spec {A B} (m : M A) (k : A -> M B) w
    (S : outcome A -> world -> Prop) (Q : outcome B -> world -> Prop) :
  wp m w S ->
  (forall o w1, S o w1 -> after (fun a w2 => wp (k a) w2 Q) Q o w1) ->
  wp (bind m k) w Q.
Proof. intros HS Hk. apply wp_bind. by apply (wp_mono _ _ S). Qed.

(** ** The stages, one by one *)

Lemma untouched_refl w : untouched w w.
Proof. split; try done. exists []. by rewrite app_nil_r. Qed.

Lemma untouched_trans w1 w2 w3 : untouched w1 w2 -> untouched w2 w3 -> untouched w1 w3.
Proof.
  intros [] [? ? ? ? ? [l2 Hl2]]. split; try congruence.
  destruct more_logs0 as [l1 Hl1]. exists (l1 ++ l2).
  by rewrite Hl2, Hl1, app_assoc.
Qed.

(** Reading fields through field updates. *)
Ltac world_simpl :=
  cbn [fst snd
       environ corporate_customers touchpoints uncommitted resultset bus script
       alive entropy draws utc_clock calls logs stdout frame
       set_environ set_touchpoints set_uncommitted set_resultset set_bus
       set_script set_alive set_draws set_calls set_logs set_stdout set_frame].

Lemma use_local_spec name w (Q : outcome unit -> world -> Prop) :
  Q (Val tt) w -> (forall e, Q (Raise e) w) -> wp (use_local name) w Q.
Proof.
  intros Hval Hraise. unfold wp, use_local.
  destruct (existsb (String.eqb name) (frame w)); cbn; auto.
Qed.

Lemma wp_cursor_fetchone cur w (Q : outcome (option fetched) -> world -> Prop) :
  (forall e rest,
      Q (Raise e) (set_script rest (set_calls (calls w ++ [EvFetchone]) w))) ->
  (forall rest,
      resultset w = [] ->
      Q (Val None) (set_script rest (set_calls (calls w ++ [EvFetchone]) w))) ->
  (forall rest row rows,
      resultset w = row :: rows ->
      Q (Val (Some (if cur_dictionary cur then RowDict row
                    else RowTuple (map snd row))))
        (set_resultset rows
           (set_script rest (set_calls (calls w ++ [EvFetchone]) w)))) ->
  wp (cursor_fetchone cur) w Q.
Proof.
  intros Hraise Hnone Hrow. unfold cursor_fetchone.
  apply wp_library_call; [|done].
  intros rest. unfold wp. cbn [resultset set_script set_calls].
  destruct (resultset w) as [|row rows] eqn:Hrs; cbn [fst snd]; auto.
Qed.

(** Steps of the calculus on the goal. *)
Ltac wp_step :=
  lazymatch goal with
  | |- wp (bind _ _) _ _ => apply wp_bind
  | |- wp (ret _) _ _ => apply wp_ret
  | |- wp (raise _) _ _ => apply wp_raise
  | |- wp (sys_exit _) _ _ => apply wp_sys_exit
  | |- wp (try_finally _ _) _ _ => apply wp_try_finally
  | |- wp (try_except _ _) _ _ => apply wp_try_except
  | |- wp (call_method _) _ _ => apply wp_call_method
  | |- wp (cursor_fetchone _) _ _ =>
      apply wp_cursor_fetchone;
      [intros ?e ?rest | intros ?rest ?Hrs | intros ?rest ?row ?rows ?Hrs];
      world_simpl
  | |- wp (library_call _ _) _ _ =>
      apply wp_library_call; [intros ?rest | intros ?e ?rest]; world_simpl
  | |- wp connection_is_connected _ _ =>
      apply wp_is_connected; intros ?b ?rest; world_simpl
  | |- wp (dispatch nil _) _ _ => apply wp_dispatch_nil
  | |- wp (dispatch (_ :: _) _) _ _ =>
      apply wp_dispatch_cons; intros ?Hcatch
  | |- wp (logger_info _) _ _ => unfold wp at 1, logger_info; world_simpl
  | |- wp (logger_error _) _ _ => unfold wp at 1, logger_error; world_simpl
  | |- wp (bind_local _) _ _ => unfold wp at 1, bind_local; world_simpl
  | |- wp (in_locals _) _ _ => unfold wp at 1, in_locals; world_simpl
  | |- wp uuid_uuid4 _ _ => unfold wp at 1, uuid_uuid4; world_simpl
  | |- wp datetime_utcnow _ _ => unfold wp at 1, datetime_utcnow; world_simpl
  | |- wp (use_local _) _ _ => apply use_local_spec; [| intros ?e]
  | |- wp (if ?c then _ else _) _ _ => destruct c eqn:?
  | |- wp (match ?x with [] => _ | _ :: _ => _ end) _ _ => destruct x eqn:?
  | |- wp (match ?x with Some _ => _ | None => _ end) _ _ => destruct x eqn:?
  | |- wp (match ?x with RowTuple _ => _ | RowDict _ => _ end) _ _ =>
      destruct x eqn:?
  | |- wp (match ?x with
           | ANone => _ | AInt _ => _ | AStr _ => _ | ADatetime _ => _
           end) _ _ => destruct x eqn:?
  | |- wp (fun _ => _) _ _ => unfold wp at 1; cbn beta iota; world_simpl
  | |- after _ _ _ _ => unfold after at 1; cbn beta iota
  | |- match ?o with Val _ => _ | Raise _ => _ | Exit _ => _ end =>
      cbn beta iota
  end.

Ltac solve_prefix := eexists; cbn; reflexivity.

Ltac solve_untouched :=
  split; world_simpl; try reflexivity;
  first [ exists []; rewrite app_nil_r; reflexivity
        | rewrite <- ?app_assoc; eexists; reflexivity ].

Ltac solve_traced :=
  unfold traced; world_simpl;
  first [ instantiate (1 := []); rewrite app_nil_r; reflexivity
        | rewrite <- ?app_assoc; cbn [app]; reflexivity ].

Lemma release_connection_spec w :
  wp release_connection w (release_post w).
Proof.
  unfold release_connection, cursor_close, connection_close.
  repeat wp_step;
    (split; [solve_untouched |]);
    (do 3 (split; [world_simpl; reflexivity |]));
    (split; [| done]);
    eexists; (split; [solve_traced | solve_prefix]).
Qed.

Ltac solve_completion :=
  let Hv := fresh in let Ht := fresh in
  intros ? Hv Ht;
  first [ discriminate Hv | reflexivity | injection Hv as <-; discriminate Ht ].

Ltac solve_try_post :=
  (split; [solve_untouched |]);
  (split; [world_simpl; reflexivity |]);
  (split; [eexists;
           (split; [solve_traced
                   | split; [solve_prefix | split; [discriminate | solve_completion]]]) |]);
  (split; [done |]).

(** A datastore method is its [try] block followed by the release of the
    connection, in a frame of its own. *)
Lemma wp_datastore_method {A} `{Truthy A} (tr : M A) body
    (X : outcome A -> list touchpoints_row -> nat -> Prop) w :
  (forall o e table drawn, X o table drawn -> X (Raise e) table drawn) ->
  wp tr (set_frame [] w) (try_post body X (set_frame [] w)) ->
  wp (call_method (try_finally tr release_connection)) w (method_post body X w).
Proof.
  intros Hraise Htry. apply wp_call_method, wp_try_finally.
  eapply wp_mono; [exact Htry|]. clear Htry.
  intros o w1 (Hun1 & Hbus1 & (b & Hb & Hpre & Hne & Hfull) & Hexit1 & HX).
  eapply wp_mono; [apply release_connection_spec|].
  intros o2 w2 (Hun2 & Htp2 & Hbus2 & Hdraws2 & (c & Hc & Hprec) & Hexit2).
  assert (Hpost : forall o' : outcome A,
             (forall c, o' <> Exit c) -> X o' (touchpoints w1) (draws w1) ->
             (forall a, o' = Val a -> o = Val a) ->
             method_post body X w o' (set_frame (frame w) w2)).
  { intros o' Hexit HX' Hsame.
    split; [|split; [done|split; [|split; [|split; [done|]]]]].
    - destruct (untouched_trans _ _ _ Hun1 Hun2). by split.
    - cbn. by rewrite Hbus2, Hbus1.
    - exists (b ++ c). split; [|split].
      + unfold traced in *. cbn in *. by rewrite Hc, Hb, app_assoc.
      + by exists b, c.
      + intros a Ha Ht. exists c. split; [|done].
        by rewrite (Hfull a (Hsame a Ha) Ht).
    - cbn. by rewrite Htp2, Hdraws2. }
  unfold after. destruct o2 as [[]|e|c2].
  - by apply Hpost.
  - apply Hpost; [done | by eapply Hraise | done].
  - by destruct (Hexit2 c2).
Qed.

Lemma get_customer_id_spec self name w :
  wp (get_customer_id self name) w
     (method_post (lookup_calls self name) (reads_only w) w).
Proof.
  unfold get_customer_id. apply wp_datastore_method; [done|].
  unfold mysql_connect, connection_cursor, cursor_execute.
  repeat wp_step; solve_try_post; by split.
Qed.

Lemma get_customer_details_spec self customer_id w :
  wp (get_customer_details self customer_id) w
     (method_post (details_calls self customer_id) (reads_only w) w).
Proof.
  unfold get_customer_details. apply wp_datastore_method; [done|].
  unfold mysql_connect, connection_cursor, cursor_execute, isoformat_column.
  repeat wp_step; solve_try_post; by split.
Qed.

Lemma create_touchpoints_record_spec self customer_id w :
  wp (create_touchpoints_record self customer_id) w
     (method_post (insert_calls self (next_touchpoints_id w) customer_id)
                  (inserts_one customer_id w) w).
Proof.
  unfold create_touchpoints_record. apply wp_datastore_method.
  { unfold inserts_one. intros o e table drawn (Ht & Hd & _).
    split; [done|]. split; [done|]. split; [intros; discriminate|].
    split; intros; discriminate. }
  unfold mysql_connect, connection_cursor, cursor_execute, connection_commit.
  repeat wp_step; solve_try_post;
    unfold inserts_one, new_record, next_touchpoints_id; world_simpl; cbn [app];
    (split; [auto|]); (split; [auto|]);
    (split; [intros ? [= <-]; auto|]);
    (split; [try (intros ? [=]); auto | try (intros [=]); auto]).
Qed.

Ltac solve_publish_trace :=
  eexists; split; [solve_traced|];
  eexists _, []; split; [symmetry; apply app_nil_r|];
  split; [solve_prefix|]; split; [discriminate | by exists []].

Lemma publish_touchpoints_created_event_spec self touchpoints_id customer_details w :
  wp (publish_touchpoints_created_event self touchpoints_id customer_details) w
     (publish_post self touchpoints_id customer_details w).
Proof.
  unfold publish_touchpoints_created_event, nats_connect, json_dumps_encode,
    nc_publish, nc_close.
  apply wp_call_method.
  repeat wp_step;
    try (unfold is_Exception in *; discriminate);
    unfold publish_post, message_text; world_simpl;
    repeat match goal with
           | H : json_dumps_indent2 _ = _ |- _ => rewrite H; clear H
           end;
    cbn [default];
    (split; [solve_untouched|]);
    (do 3 (split; [reflexivity|]));
    (split; [eexists; reflexivity|]);
    (split; [solve_publish_trace|]);
    (split;
     [ first [ left; reflexivity | right; eexists; split; reflexivity ]
     | first [ intros ?; discriminate
             | intros _; eexists; split;
               [reflexivity | split; [reflexivity | solve_traced]] ] ]).
Qed.

(** ** The workflow *)

(** The method does what the specification says: it is the
    stop-at-first-failure composition of the four stages. *)
Lemma workflow_refines self w :
  create_touchpoints_for_customer self w = conclude w (stop_at_first_failure self w).
Proof.
  unfold create_touchpoints_for_customer, call_method, stop_at_first_failure.
  erewrite bind_val by reflexivity. fold (workflow_entry self w).
  unfold bind at 1.
  destruct (get_customer_id _ _ _) as [[cid|e|c] w1]; [|done..].
  destruct (negb (truthy cid)); [done|].
  unfold bind at 1.
  destruct (create_touchpoints_record _ _ _) as [[tid|e|c] w2]; [|done..].
  destruct (negb (truthy tid)); [done|].
  unfold bind at 1.
  destruct (get_customer_details _ _ _) as [[details|e|c] w3]; [|done..].
  destruct (negb (truthy details)); [done|].
  unfold bind at 1.
  destruct (publish_touchpoints_created_event _ _ _ _) as [[ok|e|c] w4]; [|done..].
  by destruct (negb (truthy ok)).
Qed.

(** ** What a stage trace contains *)

Lemma prefix_of_cons_inv {A} (l : list A) x xs :
  l `prefix_of` x :: xs -> l = [] \/ exists l', l = x :: l' /\ l' `prefix_of` xs.
Proof.
  intros [k Hk]. destruct l as [|y l]; [by left|right].
  injection Hk as -> ->. exists l. split; [done | by exists k].
Qed.

Lemma prefix_of_nil_inv {A} (l : list A) : l `prefix_of` [] -> l = [].
Proof. intros [k Hk]. by destruct l. Qed.

(** All the lists that a prefix of a given concrete list can be. *)
Ltac enumerate_prefix H :=
  repeat (apply prefix_of_cons_inv in H as [->|(? & -> & H)]);
  [.. | apply prefix_of_nil_inv in H as ->].

(** All the traces that a stage can leave. *)
Ltac enumerate_stage H :=
  let b := fresh "b" in let c := fresh "c" in
  let Hb := fresh "Hb" in let Hne := fresh "Hne" in let Hc := fresh "Hc" in
  destruct H as (b & c & -> & Hb & Hne & Hc);
  unfold lookup_calls, insert_calls, details_calls, publish_calls, release_calls in Hb, Hc;
  enumerate_prefix Hb; try done; enumerate_prefix Hc.

Lemma lookup_trace_facts self name t :
  stage_trace (lookup_calls self name) release_calls t ->
  connects t = [Datastore] /\
  statements t `prefix_of` [SelectCustomerByName] /\
  Forall (fun e => is_write e = false /\ is_bus e = false) t.
Proof.
  intros H. enumerate_stage H; cbn;
    (split; [reflexivity|]); (split; [solve_prefix|]); repeat constructor.
Qed.

Lemma details_trace_facts self customer_id t :
  stage_trace (details_calls self customer_id) release_calls t ->
  connects t = [Datastore] /\
  statements t `prefix_of` [SelectCustomerById] /\
  Forall (fun e => is_write e = false /\ is_bus e = false) t.
Proof.
  intros H. enumerate_stage H; cbn;
    (split; [reflexivity|]); (split; [solve_prefix|]); repeat constructor.
Qed.

Lemma insert_trace_facts self touchpoints_id customer_id t :
  stage_trace (insert_calls self touchpoints_id customer_id) release_calls t ->
  connects t = [Datastore] /\
  statements t `prefix_of` [InsertTouchpoints] /\
  Forall (fun e => is_bus e = false) t.
Proof.
  intros H. enumerate_stage H; cbn;
    (split; [reflexivity|]); (split; [solve_prefix|]); repeat constructor.
Qed.

Lemma publish_trace_facts self body t :
  stage_trace (publish_calls self body) [] t ->
  connects t = [Bus] /\
  statements t = [] /\
  Forall (fun e => is_write e = false) t.
Proof.
  intros H. enumerate_stage H; cbn;
    (split; [reflexivity|]); (split; [reflexivity|]); repeat constructor.
Qed.

(** A stage that ran its whole [try] block has executed its statement. *)
Lemma completed_statements (body c : list event) :
  c `prefix_of` release_calls -> statements (body ++ c) = statements body.
Proof.
  intros Hc. unfold statements. rewrite omap_app.
  unfold release_calls in Hc. enumerate_prefix Hc; cbn; by rewrite app_nil_r.
Qed.

(** ** Summaries of the four stages *)

Lemma get_customer_id_summary self name w o w' :
  get_customer_id self name w = (o, w') ->
  stage_summary Datastore [SelectCustomerByName]
    (fun e => is_write e = false /\ is_bus e = false) w o w' /\
  touchpoints w' = touchpoints w /\ bus w' = bus w /\ draws w' = draws w.
Proof.
  intros Hrun.
  destruct (wp_run _ _ _ _ _ (get_customer_id_spec self name w) Hrun)
    as (Hun & Hfr & Hbus & (t & Ht & Hst & Hfull) & Hex & Htp & Hd).
  destruct (lookup_trace_facts _ _ _ Hst) as (Hco & Hsq & Hall).
  split; [|done]. split; [done|]. split; [done|]. split; [done|].
  exists t. split; [done|]. split; [done|]. split; [done|]. split; [done|].
  intros a Ha Htr. destruct (Hfull a Ha Htr) as (c & -> & Hc).
  by rewrite completed_statements.
Qed.

Lemma get_customer_details_summary self customer_id w o w' :
  get_customer_details self customer_id w = (o, w') ->
  stage_summary Datastore [SelectCustomerById]
    (fun e => is_write e = false /\ is_bus e = false) w o w' /\
  touchpoints w' = touchpoints w /\ bus w' = bus w /\ draws w' = draws w.
Proof.
  intros Hrun.
  destruct (wp_run _ _ _ _ _ (get_customer_details_spec self customer_id w) Hrun)
    as (Hun & Hfr & Hbus & (t & Ht & Hst & Hfull) & Hex & Htp & Hd).
  destruct (details_trace_facts _ _ _ Hst) as (Hco & Hsq & Hall).
  split; [|done]. split; [done|]. split; [done|]. split; [done|].
  exists t. split; [done|]. split; [done|]. split; [done|]. split; [done|].
  intros a Ha Htr. destruct (Hfull a Ha Htr) as (c & -> & Hc).
  by rewrite completed_statements.
Qed.

Lemma create_touchpoints_record_summary self customer_id w o w' :
  create_touchpoints_record self customer_id w = (o, w') ->
  stage_summary Datastore [InsertTouchpoints] (fun e => is_bus e = false) w o w' /\
  bus w' = bus w /\
  inserts_one customer_id w o (touchpoints w') (draws w').
Proof.
  intros Hrun.
  destruct (wp_run _ _ _ _ _ (create_touchpoints_record_spec self customer_id w) Hrun)
    as (Hun & Hfr & Hbus & (t & Ht & Hst & Hfull) & Hex & HX).
  destruct (insert_trace_facts _ _ _ _ Hst) as (Hco & Hsq & Hall).
  split; [|done]. split; [done|]. split; [done|]. split; [done|].
  exists t. split; [done|]. split; [done|]. split; [done|]. split; [done|].
  intros a Ha Htr. destruct (Hfull a Ha Htr) as (c & -> & Hc).
  by rewrite completed_statements.
Qed.

Lemma publish_summary self touchpoints_id customer_details w o w' :
  publish_touchpoints_created_event self touchpoints_id customer_details w = (o, w') ->
  stage_summary Bus [] (fun e => is_write e = false) w o w' /\
  publish_post self touchpoints_id customer_details w o w'.
Proof.
  intros Hrun.
  pose proof (wp_run _ _ _ _ _
    (publish_touchpoints_created_event_spec self touchpoints_id customer_details w)
    Hrun) as Hpost.
  split; [|done].
  destruct Hpost as (Hun & Hfr & Htp & Hd & (b & ->) & (t & Ht & Hst) & _).
  destruct (publish_trace_facts _ _ _ Hst) as (Hco & Hsq & Hall).
  split; [done|]. split; [done|]. split; [done|].
  exists t. rewrite Hsq. split; [done|]. split; [done|].
  split; [by exists []|]. done.
Qed.

(** ** The sequence of the stages *)

Lemma traced_trans w1 w2 w3 t1 t2 :
  traced w1 w2 t1 -> traced w2 w3 t2 -> traced w1 w3 (t1 ++ t2).
Proof. unfold traced. intros H1 H2. by rewrite H2, H1, app_assoc. Qed.

Lemma connects_app t1 t2 : connects (t1 ++ t2) = connects t1 ++ connects t2.
Proof. apply omap_app. Qed.

Lemma statements_app t1 t2 : statements (t1 ++ t2) = statements t1 ++ statements t2.
Proof. apply omap_app. Qed.

(** The trace of a run, however far it got: one connection attempt per
    stage entered, addressed to the datastore for stages 1 to 3 and to the
    bus for stage 4, and the statements of the stages in their order. *)
Lemma progress_trace self w :
  let p := stop_at_first_failure self w in
  (forall stage c w', p <> ExitedIn stage c w') /\
  exists t, traced w (snd (conclude w p)) t /\
            connects t = take (stages_entered p) stage_connects /\
            statements t `prefix_of` stage_statements.
Proof.
  unfold stop_at_first_failure.
  destruct (get_customer_id _ _ _) as [o1 w1] eqn:E1.
  destruct (get_customer_id_summary _ _ _ _ _ E1)
    as ((_ & _ & Hex1 & t1 & Ht1 & Hc1 & Hs1 & _ & Hf1) & _).
  assert (Ht1' : traced w w1 t1) by exact Ht1.
  destruct o1 as [cid|e|c]; [|split; [done|] |by destruct (Hex1 c)].
  2: { exists t1. split; [exact Ht1'|]. split; [done|].
       etrans; [exact Hs1 | solve_prefix]. }
  destruct (negb (truthy cid)) eqn:Hcid.
  { split; [done|]. exists t1. split; [exact Ht1'|]. split; [done|].
    etrans; [exact Hs1 | solve_prefix]. }
  apply negb_false_iff in Hcid. specialize (Hf1 cid eq_refl Hcid).
  destruct (create_touchpoints_record _ _ _) as [o2 w2] eqn:E2.
  destruct (create_touchpoints_record_summary _ _ _ _ _ E2)
    as ((_ & _ & Hex2 & t2 & Ht2 & Hc2 & Hs2 & _ & Hf2) & _).
  pose proof (traced_trans _ _ _ _ _ Ht1' Ht2) as Ht12.
  assert (Hs12 : statements (t1 ++ t2) `prefix_of` stage_statements).
  { rewrite statements_app, Hf1. unfold stage_statements.
    enumerate_prefix Hs2; solve_prefix. }
  destruct o2 as [tid|e|c]; [|split; [done|] |by destruct (Hex2 c)].
  2: { exists (t1 ++ t2). split; [exact Ht12|]. split; [|done].
       by rewrite connects_app, Hc1, Hc2. }
  destruct (negb (truthy tid)) eqn:Htid.
  { split; [done|]. exists (t1 ++ t2). split; [exact Ht12|]. split; [|done].
    by rewrite connects_app, Hc1, Hc2. }
  apply negb_false_iff in Htid. specialize (Hf2 tid eq_refl Htid).
  destruct (get_customer_details _ _ _) as [o3 w3] eqn:E3.
  destruct (get_customer_details_summary _ _ _ _ _ E3)
    as ((_ & _ & Hex3 & t3 & Ht3 & Hc3 & Hs3 & _ & Hf3) & _).
  pose proof (traced_trans _ _ _ _ _ Ht12 Ht3) as Ht123.
  assert (Hs123 : statements ((t1 ++ t2) ++ t3) `prefix_of` stage_statements).
  { rewrite !statements_app, Hf1, Hf2. unfold stage_statements.
    enumerate_prefix Hs3; solve_prefix. }
  destruct o3 as [details|e|c]; [|split; [done|] |by destruct (Hex3 c)].
  2: { exists ((t1 ++ t2) ++ t3). split; [exact Ht123|]. split; [|done].
       by rewrite !connects_app, Hc1, Hc2, Hc3. }
  destruct (negb (truthy details)) eqn:Hdet.
  { split; [done|]. exists ((t1 ++ t2) ++ t3). split; [exact Ht123|]. split; [|done].
    by rewrite !connects_app, Hc1, Hc2, Hc3. }
  apply negb_false_iff in Hdet. specialize (Hf3 details eq_refl Hdet).
  destruct (publish_touchpoints_created_event _ _ _ _) as [o4 w4] eqn:E4.
  destruct (publish_summary _ _ _ _ _ _ E4)
    as ((_ & _ & Hex4 & t4 & Ht4 & Hc4 & Hs4 & _) & _).
  pose proof (traced_trans _ _ _ _ _ Ht123 Ht4) as Ht1234.
  assert (Hs1234 : statements (((t1 ++ t2) ++ t3) ++ t4) `prefix_of` stage_statements).
  { rewrite !statements_app, Hf1, Hf2, Hf3. apply prefix_of_nil_inv in Hs4 as ->.
    by exists []. }
  assert (Hc1234 : connects (((t1 ++ t2) ++ t3) ++ t4) = stage_connects).
  { by rewrite !connects_app, Hc1, Hc2, Hc3, Hc4. }
  destruct o4 as [ok|e|c]; [|split; [done|] |by destruct (Hex4 c)].
  2: { by exists (((t1 ++ t2) ++ t3) ++ t4). }
  split; [by destruct (negb (truthy ok))|].
  exists (((t1 ++ t2) ++ t3) ++ t4).
  by destruct (negb (truthy ok)).
Qed.

Lemma stages_entered_range self w :
  (1 <= stages_entered (stop_at_first_failure self w) <= 4)%nat.
Proof.
  unfold stop_at_first_failure.
  repeat (first [ destruct (get_customer_id _ _ _) as [[?|?|?] ?]
                | destruct (create_touchpoints_record _ _ _) as [[?|?|?] ?]
                | destruct (get_customer_details _ _ _) as [[?|?|?] ?]
                | destruct (publish_touchpoints_created_event _ _ _ _) as [[?|?|?] ?]
                | destruct (negb _) ]; cbn; try lia).
Qed.

(** C3: the workflow is the stop-at-first-failure sequence of its four
    stages.  When the result of stage [k] signals failure it returns [False]
    from the world in which that stage ended, with one more log record and
    no further call; and every run, however it ends, shows exactly one
    connection attempt per stage entered (datastore, datastore, datastore,
    bus, in this order) and the statements of the stages in their order, so
    no stage is skipped, reordered or run twice. *)
Theorem workflow_stops_at_first_failure self w :
  let p := stop_at_first_failure self w in
  create_touchpoints_for_customer self w = conclude w p /\
  (forall stage w_stage,
      p = StoppedAt stage w_stage ->
      create_touchpoints_for_customer self w
      = (Val false, workflow_exit w (failure_record stage) w_stage) /\
      calls (snd (create_touchpoints_for_customer self w)) = calls w_stage) /\
  (1 <= stages_entered p <= 4)%nat /\
  exists t, traced w (snd (create_touchpoints_for_customer self w)) t /\
            connects t = take (stages_entered p) stage_connects /\
            statements t `prefix_of` stage_statements.
Proof.
  intros p. pose proof (workflow_refines self w) as Href. fold p in Href.
  split; [exact Href|]. split; [|split].
  - intros stage w_stage Hp. rewrite Href, Hp. by split.
  - apply stages_entered_range.
  - rewrite Href. apply progress_trace.
Qed.

(** A run whose lookup returns a falsy value. *)
Lemma stopped_at_lookup self w customer_id w1 :
  get_customer_id self (customer_name self) (workflow_entry self w)
  = (Val customer_id, w1) ->
  truthy customer_id = false ->
  let w' := workflow_exit w (failure_record 1) w1 in
  create_touchpoints_for_customer self w = (Val false, w') /\
  touchpoints w' = touchpoints w /\
  bus w' = bus w /\
  exists t, traced w w' t /\
            Forall (fun e => is_write e = false /\ is_bus e = false) t /\
            connects t = [Datastore] /\
            statements t `prefix_of` [SelectCustomerByName].
Proof.
  intros Hrun Hfalsy w'.
  destruct (get_customer_id_summary _ _ _ _ _ Hrun)
    as ((_ & _ & _ & t & Ht & Hc & Hs & Hall & _) & Htp & Hbus & _).
  split; [|split; [exact Htp | split; [exact Hbus|]]].
  - rewrite workflow_refines. unfold stop_at_first_failure.
    by rewrite Hrun, Hfalsy.
  - exists t. by repeat split.
Qed.



(** ** Runs in which the oracle lets the calls go well *)

Lemma well_next n answers :
  well (S n) answers -> exists rest, next_answer answers = (None, rest) /\ well n rest.
Proof.
  unfold well. destruct answers as [|a rest]; cbn.
  - intros _. exists []. split; [done|]. by rewrite take_nil.
  - intros Hall. apply Forall_cons in Hall as [-> Hrest]. by exists rest.
Qed.

Lemma wp_library_call_well {A} n ev (effect : M A) w (Q : outcome A -> world -> Prop) :
  well (S n) (script w) ->
  (forall rest, well n rest ->
                wp effect (set_script rest (set_calls (calls w ++ [ev]) w)) Q) ->
  wp (library_call ev effect) w Q.
Proof.
  intros Hwell Hgo. destruct (well_next _ _ Hwell) as (rest & Hnext & Hrest).
  unfold wp, library_call. rewrite Hnext. by apply Hgo.
Qed.

Lemma wp_cursor_fetchone_row n cur w row rows
    (Q : outcome (option fetched) -> world -> Prop) :
  well (S n) (script w) ->
  resultset w = row :: rows ->
  (forall rest,
      well n rest ->
      Q (Val (Some (if cur_dictionary cur then RowDict row
                    else RowTuple (map snd row))))
        (set_resultset rows
           (set_script rest (set_calls (calls w ++ [EvFetchone]) w)))) ->
  wp (cursor_fetchone cur) w Q.
Proof.
  intros Hwell Hrs HQ. unfold cursor_fetchone.
  eapply wp_library_call_well; [exact Hwell|].
  intros rest Hrest. unfold wp. cbn [resultset set_script set_calls].
  rewrite Hrs. cbn [fst snd]. by apply HQ.
Qed.

Lemma wp_cursor_fetchone_none n cur w
    (Q : outcome (option fetched) -> world -> Prop) :
  well (S n) (script w) ->
  resultset w = [] ->
  (forall rest,
      well n rest ->
      Q (Val None) (set_script rest (set_calls (calls w ++ [EvFetchone]) w))) ->
  wp (cursor_fetchone cur) w Q.
Proof.
  intros Hwell Hrs HQ. unfold cursor_fetchone.
  eapply wp_library_call_well; [exact Hwell|].
  intros rest Hrest. unfold wp. cbn [resultset set_script set_calls].
  rewrite Hrs. cbn [fst snd]. by apply HQ.
Qed.

Lemma wp_value {A} (m : M A) w a w' (Q : outcome A -> world -> Prop) :
  m w = (Val a, w') -> Q (Val a) w' -> wp m w Q.
Proof. unfold wp. by intros ->. Qed.

(** Computing the tests that a run makes on concrete values. *)
Ltac test_simpl :=
  cbn [truthy truthy_optional truthy_fetched truthy_list truthy_bool
       map snd fst row_by_name row_by_id cur_dictionary negb
       existsb app String.eqb Ascii.eqb Bool.eqb orb andb
       some_str some_dict default].

(** The same steps as [wp_step], for a run whose library calls go well and
    whose tests can be computed. *)
Ltac wp_eval :=
  lazymatch goal with
  | |- wp (bind _ _) _ _ => apply wp_bind
  | |- wp (ret _) _ _ => apply wp_ret
  | |- wp (try_finally _ _) _ _ => apply wp_try_finally
  | |- wp (try_except _ _) _ _ => apply wp_try_except
  | |- wp (call_method _) _ _ => apply wp_call_method
  | |- wp (library_call _ _) _ _ =>
      eapply wp_library_call_well;
      [world_simpl; eassumption | intros ?rest ?Hwell; world_simpl]
  | |- wp connection_is_connected _ _ =>
      apply wp_is_connected; intros ?b ?rest; world_simpl
  | |- wp (logger_info _) _ _ => eapply wp_value; [reflexivity|]; world_simpl
  | |- wp (logger_error _) _ _ => eapply wp_value; [reflexivity|]; world_simpl
  | |- wp (bind_local _) _ _ => eapply wp_value; [reflexivity|]; world_simpl
  | |- wp (in_locals _) _ _ =>
      eapply wp_value; [reflexivity|]; world_simpl; test_simpl
  | |- wp (use_local _) _ _ =>
      eapply wp_value;
      [unfold use_local; world_simpl; test_simpl; reflexivity|]; world_simpl
  | |- wp uuid_uuid4 _ _ => eapply wp_value; [reflexivity|]; world_simpl
  | |- wp datetime_utcnow _ _ => eapply wp_value; [reflexivity|]; world_simpl
  | |- wp (if true then _ else _) _ _ => cbn beta iota
  | |- wp (if false then _ else _) _ _ => cbn beta iota
  | |- wp (if ?c then _ else _) _ _ => destruct c eqn:?
  | |- wp (fun _ => (_, _)) _ _ => unfold wp at 1; cbn beta iota; world_simpl
  | |- wp (fun _ => match _ with _ => _ end) _ _ =>
      unfold wp at 1; cbn beta iota; world_simpl
  | |- after _ _ _ _ => unfold after at 1; cbn beta iota; test_simpl
  | |- match ?o with Val _ => _ | Raise _ => _ | Exit _ => _ end =>
      cbn beta iota
  end.

Lemma wp_result {A} (m : M A) w (x : outcome A) (P : world -> Prop) :
  wp m w (fun o w' => o = x /\ P w') -> exists w', m w = (x, w') /\ P w'.
Proof.
  unfold wp. destruct (m w) as [o w']. cbn. intros [-> HP]. by exists w'.
Qed.

(** The lookup finds the first matching row and returns its identifier,
    whatever that identifier is. *)
Lemma lookup_found self w c rows :
  matching_customers self w = c :: rows ->
  well 6 (script w) ->
  exists w1,
    get_customer_id self (customer_name self) w = (Val (cust_id c), w1) /\
    logs w1 = logs w ++ [(INFO, "Found customer: " +:+ py_str (cust_name c)
                                +:+ " (ID: " +:+ py_str (cust_id c)
                                +:+ ", Tier: " +:+ py_str (cust_subscription_tier c)
                                +:+ ")")].
Proof.
  intros Hmatch Hwell. apply wp_result.
  unfold get_customer_id, release_connection, mysql_connect, connection_cursor,
    cursor_execute, cursor_close, connection_close.
  unfold matching_customers in Hmatch.
  repeat wp_eval.
  eapply wp_cursor_fetchone_row;
    [world_simpl; eassumption | world_simpl; rewrite Hmatch; reflexivity |].
  intros; world_simpl.
  repeat wp_eval; (split; [reflexivity | world_simpl; reflexivity]).
Qed.

(** The lookup finds no row: it logs that and returns [None]. *)
Lemma lookup_not_found self w :
  matching_customers self w = [] ->
  well 6 (script w) ->
  exists w1,
    get_customer_id self (customer_name self) w = (Val ANone, w1) /\
    logs w1 = logs w ++ [(ERROR, "Customer '" +:+ py_str (str_param (customer_name self))
                                 +:+ "' not found in database")].
Proof.
  intros Hmatch Hwell. apply wp_result.
  unfold get_customer_id, release_connection, mysql_connect, connection_cursor,
    cursor_execute, cursor_close, connection_close.
  unfold matching_customers in Hmatch.
  repeat wp_eval.
  eapply wp_cursor_fetchone_none;
    [world_simpl; eassumption | world_simpl; rewrite Hmatch; reflexivity |].
  intros; world_simpl.
  repeat wp_eval; (split; [reflexivity | world_simpl; reflexivity]).
Qed.

(** The datastore refuses the connection: the error is logged and the
    lookup returns [None], without any further call. *)
Lemma lookup_datastore_error self name w msg rest :
  script w = Some (MySQLError msg) :: rest ->
  get_customer_id self name w
  = (Val ANone,
     set_logs (logs w ++ [(ERROR, "Database error while looking up customer: " +:+ msg)])
       (set_script rest (set_calls (calls w ++ [EvDbConnect (db_config_of self)]) w))).
Proof.
  intros Hscript.
  unfold get_customer_id, call_method, try_finally, try_except, mysql_connect.
  erewrite bind_raise.
  2: { unfold library_call. cbn [script set_frame]. rewrite Hscript. reflexivity. }
  cbn. by destruct w.
Qed.


(** C10: a row matches the name but its identifier is falsy (0, the empty
    string, NULL).  The lookup logs the customer as found and returns that
    identifier; the workflow takes it for the not-found signal, logs the
    failure and returns [False] without attempting the insert. *)
Theorem falsy_identifier_is_taken_as_not_found self w c rows :
  matching_customers self w = c :: rows ->
  truthy (cust_id c) = false ->
  well 6 (script w) ->
  exists w',
    create_touchpoints_for_customer self w = (Val false, w') /\
    logs w' = logs w ++
      [(INFO, "Creating touchpoints for customer: "
              +:+ py_str (str_param (customer_name self)));
       (INFO, "Found customer: " +:+ py_str (cust_name c)
              +:+ " (ID: " +:+ py_str (cust_id c)
              +:+ ", Tier: " +:+ py_str (cust_subscription_tier c) +:+ ")");
       (ERROR, "Failed to find customer")] /\
    touchpoints w' = touchpoints w /\
    bus w' = bus w /\
    exists t, traced w w' t /\
              Forall (fun e => is_write e = false /\ is_bus e = false) t /\
              connects t = [Datastore].
Proof.
  intros Hmatch Hfalsy Hwell.
  destruct (lookup_found self (workflow_entry self w) c rows Hmatch Hwell)
    as (w1 & Hrun & Hlogs).
  destruct (stopped_at_lookup self w _ w1 Hrun Hfalsy)
    as (Hwf & Htp & Hbus & t & Ht & Hall & Hc & _).
  eexists. split; [exact Hwf|]. split; [|split; [exact Htp|split; [exact Hbus|]]].
  - unfold workflow_exit. cbn [logs set_frame set_logs]. rewrite Hlogs.
    cbn [workflow_entry logs set_logs set_frame failure_record].
    by rewrite <- !app_assoc.
  - by exists t.
Qed.

Lemma falsy_identifier_is_taken_as_not_found_witness :
  exists w', create_touchpoints_for_customer demo_creator world_zero_id = (Val false, w')
             /\ touchpoints w' = [].
Proof.
  destruct (falsy_identifier_is_taken_as_not_found demo_creator world_zero_id
              (mk_customer (AInt 0) (AStr "Example Tech Solutions")
                           (AStr "enterprise") ANone ANone) [])
    as (w' & Hrun & _ & Htp & _).
  - reflexivity.
  - reflexivity.
  - constructor.
  - exists w'. split; [exact Hrun | exact Htp].
Defined.

(** ** Version-4 identifiers *)

Lemma testbit_0xc000 i : Z.testbit 0xc000 i = (15 =? i) || (14 =? i).
Proof.
  change 0xc000 with (Z.lor (2 ^ 15) (2 ^ 14)).
  by rewrite Z.lor_spec, !Z.pow2_bits_eqb.
Qed.

Lemma testbit_0x8000 i : Z.testbit 0x8000 i = (15 =? i).
Proof. change 0x8000 with (2 ^ 15). by rewrite Z.pow2_bits_eqb. Qed.

Lemma testbit_0xf000 i :
  Z.testbit 0xf000 i = (15 =? i) || (14 =? i) || (13 =? i) || (12 =? i).
Proof.
  change 0xf000 with (Z.lor (Z.lor (Z.lor (2 ^ 15) (2 ^ 14)) (2 ^ 13)) (2 ^ 12)).
  by rewrite !Z.lor_spec, !Z.pow2_bits_eqb.
Qed.

Lemma testbit_4 i : Z.testbit 4 i = (2 =? i).
Proof. change 4 with (2 ^ 2). by rewrite Z.pow2_bits_eqb. Qed.

Ltac case_comparisons :=
  repeat match goal with
         | |- context [?a =? ?b] => destruct (Z.eqb_spec a b)
         | |- context [?a <? ?b] => destruct (Z.ltb_spec a b)
         | |- context [?a <=? ?b] => destruct (Z.leb_spec a b)
         end.

(** Every bit of the identifier: the version nibble is 0100, the variant
    bits are 1, 0, and the 122 others are those of the random draw. *)
Lemma uuid4_int_testbit r i :
  0 <= i ->
  Z.testbit (uuid4_int r) i =
  if i =? 78 then true
  else if (76 <=? i) && (i <=? 79) then false
  else if i =? 63 then true
  else if i =? 62 then false
  else (i <? 128) && Z.testbit r i.
Proof.
  intros Hi. unfold uuid4_int.
  rewrite !Z.lor_spec, !Z.land_spec, Z.lor_spec, Z.land_spec.
  rewrite !Z.lnot_spec, !Z.shiftl_spec by lia.
  rewrite Z.testbit_mod_pow2 by lia.
  rewrite testbit_0xc000, testbit_0x8000, testbit_0xf000, testbit_4.
  case_comparisons; cbn; try lia; by destruct (Z.testbit r i).
Qed.

Lemma nibble_range y : 0 <= Z.land y 15 < 16.
Proof.
  change 15 with (Z.ones 4). rewrite Z.land_ones by lia.
  apply Z.mod_pos_bound. lia.
Qed.

Ltac sixteen_cases x H :=
  assert (x = 0 \/ x = 1 \/ x = 2 \/ x = 3 \/ x = 4 \/ x = 5 \/ x = 6 \/ x = 7 \/
          x = 8 \/ x = 9 \/ x = 10 \/ x = 11 \/ x = 12 \/ x = 13 \/ x = 14 \/ x = 15)
    as H by lia;
  repeat destruct H as [H|H].

Lemma is_hex_hex_char x : 0 <= x < 16 -> is_hex (hex_char x) = true.
Proof. intros Hx. sixteen_cases x H; by subst. Qed.

Lemma is_hex_nibble y : is_hex (hex_char (Z.land y 15)) = true.
Proof. apply is_hex_hex_char, nibble_range. Qed.

(** Bit [k] of the nibble that starts at bit [s]. *)
Lemma nibble_testbit u s k :
  0 <= k < 4 -> Z.testbit (Z.land (Z.shiftr u s) 15) k = Z.testbit u (k + s).
Proof.
  intros Hk. rewrite Z.land_spec, Z.shiftr_spec by lia.
  change 15 with (Z.ones 4). rewrite Z.ones_spec_low by lia.
  apply andb_true_r.
Qed.

Lemma version_nibble r : Z.land (Z.shiftr (uuid4_int r) 76) 15 = 4.
Proof.
  pose proof (nibble_range (Z.shiftr (uuid4_int r) 76)) as Hrange.
  pose proof (nibble_testbit (uuid4_int r) 76 0 ltac:(lia)) as H0.
  pose proof (nibble_testbit (uuid4_int r) 76 1 ltac:(lia)) as H1.
  pose proof (nibble_testbit (uuid4_int r) 76 2 ltac:(lia)) as H2.
  pose proof (nibble_testbit (uuid4_int r) 76 3 ltac:(lia)) as H3.
  rewrite uuid4_int_testbit in H0, H1, H2, H3 by lia.
  cbn in H0, H1, H2, H3.
  set (x := Z.land (Z.shiftr (uuid4_int r) 76) 15) in *.
  sixteen_cases x H; rewrite H in *; try done.
Qed.

Lemma variant_nibble r :
  8 <= Z.land (Z.shiftr (uuid4_int r) 60) 15 <= 11.
Proof.
  pose proof (nibble_range (Z.shiftr (uuid4_int r) 60)) as Hrange.
  pose proof (nibble_testbit (uuid4_int r) 60 2 ltac:(lia)) as H2.
  pose proof (nibble_testbit (uuid4_int r) 60 3 ltac:(lia)) as H3.
  rewrite uuid4_int_testbit in H2, H3 by lia.
  cbn in H2, H3.
  set (x := Z.land (Z.shiftr (uuid4_int r) 60) 15) in *.
  sixteen_cases x H; rewrite H in *; try done; lia.
Qed.

Lemma is_variant_hex_char x : 8 <= x <= 11 -> is_variant (hex_char x) = true.
Proof.
  intros Hx. assert (x = 8 \/ x = 9 \/ x = 10 \/ x = 11) as H by lia.
  repeat destruct H as [H|H]; by subst.
Qed.

(** The text of a generated identifier is that of a version-4 UUID. *)
Lemma uuid4_text r : is_uuid4_text (uuid_str (uuid4_int r)) = true.
Proof.
  unfold is_uuid4_text, uuid_str, hex32, uuid4_shape.
  cbn [seq map take drop app replicate string_of_list_ascii conforms].
  change (4 * (31 - Z.of_nat 12)) with 76.
  change (4 * (31 - Z.of_nat 16)) with 60.
  rewrite version_nibble, (is_variant_hex_char _ (variant_nibble r)).
  rewrite !is_hex_nibble. reflexivity.
Qed.

Lemma uuid_str_truthy n : truthy (uuid_str n) = true.
Proof.
  unfold uuid_str, hex32.
  cbn [seq map take drop app string_of_list_ascii]. reflexivity.
Qed.

(** The identifier is a 128-bit number. *)
Lemma uuid4_int_range r : 0 <= uuid4_int r < 2 ^ 128.
Proof.
  assert (H : uuid4_int r = uuid4_int r mod 2 ^ 128).
  { apply Z.bits_inj'. intros i Hi.
    rewrite Z.testbit_mod_pow2, uuid4_int_testbit by lia.
    case_comparisons; cbn; try lia; reflexivity. }
  rewrite H. apply Z.mod_pos_bound. lia.
Qed.

(** Outside the six fixed positions, the identifier has the bits of the
    random draw. *)
Lemma uuid4_int_random_bits r i :
  0 <= i < 128 -> fixed_bit i = false ->
  Z.testbit (uuid4_int r) i = Z.testbit r i.
Proof.
  intros Hi Hfree. rewrite uuid4_int_testbit by lia.
  unfold fixed_bit in Hfree. revert Hfree.
  case_comparisons; cbn; try lia; done.
Qed.

(** ** The created record *)

(** C6: when the create stage returns an identifier, that identifier is the
    text of a version-4 UUID made from one fresh draw of 128 random bits
    (six of them overwritten by the version and the variant), and the table
    has gained exactly one record: that identifier, the customer identifier
    it was given, and NULL in the four schedule fields. *)
Theorem created_record_has_uuid4_and_null_schedule self customer_id w tid w' :
  create_touchpoints_record self customer_id w = (Val (Some tid), w') ->
  let u := uuid4_int (entropy w (draws w)) in
  tid = uuid_str u /\
  draws w' = S (draws w) /\
  is_uuid4_text tid = true /\
  0 <= u < 2 ^ 128 /\
  (forall i, 0 <= i < 128 -> fixed_bit i = false ->
             Z.testbit u i = Z.testbit (entropy w (draws w)) i) /\
  touchpoints w'
  = touchpoints w ++ [mk_touchpoints (AStr tid) customer_id ANone ANone ANone ANone] /\
  exists t, traced w w' t /\ statements t = [InsertTouchpoints].
Proof.
  intros Hrun u.
  destruct (create_touchpoints_record_summary _ _ _ _ _ Hrun)
    as ((_ & _ & _ & t & Ht & _ & _ & _ & Hfull) & _ & HX).
  destruct HX as (_ & _ & Hid & Hrow & _).
  destruct (Hid _ eq_refl) as [Hnone|Hsome]; [discriminate|].
  injection Hsome as ->.
  destruct (Hrow _ eq_refl) as (Htable & Hdrawn).
  split; [reflexivity|]. split; [exact Hdrawn|].
  split; [apply uuid4_text|]. split; [apply uuid4_int_range|].
  split; [apply uuid4_int_random_bits|]. split; [exact Htable|].
  exists t. split; [exact Ht|]. apply (Hfull _ eq_refl), uuid_str_truthy.
Qed.

Lemma created_record_has_uuid4_and_null_schedule_witness :
  touchpoints
    (snd (create_touchpoints_record demo_creator (AStr "c-1") (demo_world [])))
  = [mk_touchpoints (AStr "01234567-89ab-4def-8123-456789abcdef") (AStr "c-1")
                    ANone ANone ANone ANone].
Proof.
  destruct (created_record_has_uuid4_and_null_schedule demo_creator (AStr "c-1")
              (demo_world []) "01234567-89ab-4def-8123-456789abcdef"
              (snd (create_touchpoints_record demo_creator (AStr "c-1") (demo_world []))))
    as (_ & _ & _ & _ & _ & Htable & _).
  - vm_compute. reflexivity.
  - exact Htable.
Defined.

(** ** Timestamps *)

Lemma conforms_app shape1 shape2 s1 s2 :
  conforms shape1 s1 = true -> conforms shape2 s2 = true ->
  conforms (shape1 ++ shape2) (s1 +:+ s2) = true.
Proof.
  revert s1. induction shape1 as [|cls shape1 IH]; intros [|c s1]; cbn; try done.
  change (String c s1 +:+ s2) with (String c (s1 +:+ s2)).
  intros [Hc Hs]%andb_prop H2. rewrite Hc. cbn. by apply IH.
Qed.

Lemma conforms_length shape s :
  conforms shape s = true -> String.length s = List.length shape.
Proof.
  revert s. induction shape as [|cls shape IH]; intros [|c s]; cbn; try done.
  intros [_ Hs]%andb_prop. f_equal. by apply IH.
Qed.

Lemma replicate_snoc {A} n (x : A) l : replicate n x ++ x :: l = replicate (S n) x ++ l.
Proof. induction n as [|n IH]; cbn; [done|]. by rewrite IH. Qed.

Lemma is_digit_digit_char d : 0 <= d < 10 -> is_digit (digit_char d) = true.
Proof.
  intros Hd.
  assert (d = 0 \/ d = 1 \/ d = 2 \/ d = 3 \/ d = 4 \/ d = 5 \/ d = 6 \/ d = 7 \/
          d = 8 \/ d = 9) as H by lia.
  repeat destruct H as [H|H]; by subst.
Qed.

(** The digits that [dec_aux] puts in front of what it was given: at most
    as many as the number has. *)
Lemma dec_aux_conforms fuel : forall n acc shape k,
  0 <= n < 10 ^ Z.of_nat (S k) ->
  conforms shape acc = true ->
  exists j, (j <= S k)%nat /\
            conforms (replicate j is_digit ++ shape) (dec_aux fuel n acc) = true.
Proof.
  induction fuel as [|fuel IH]; intros n acc shape k Hn Hacc.
  - exists 0%nat. split; [lia | done].
  - cbn [dec_aux].
    assert (Hd : conforms (is_digit :: shape) (String (digit_char (n mod 10)) acc) = true).
    { cbn. rewrite is_digit_digit_char; [done|]. apply Z.mod_pos_bound. lia. }
    destruct (Z.eqb_spec (n / 10) 0) as [Hq|Hq].
    + exists 1%nat. split; [lia | exact Hd].
    + destruct k as [|k].
      { exfalso. apply Hq. apply Z.div_small. cbn in Hn. lia. }
      destruct (IH (n / 10) (String (digit_char (n mod 10)) acc)
                  (is_digit :: shape) k) as (j & Hj & Hc); [|exact Hd|].
      { split; [apply Z.div_pos; lia|].
        apply Z.div_lt_upper_bound; [lia|].
        replace (10 * 10 ^ Z.of_nat (S k)) with (10 ^ Z.of_nat (S (S k))); [lia|].
        rewrite (Nat2Z.inj_succ (S k)), Z.pow_succ_r; lia. }
      exists (S j). split; [lia|]. by rewrite <- replicate_snoc.
Qed.

Lemma zeros_conforms k : conforms (replicate k is_digit) (zeros k) = true.
Proof. induction k; cbn; done. Qed.

(** A number below [10 ^ w] is printed on exactly [w] digits. *)
Lemma zpad_conforms w n :
  (0 < w)%nat -> 0 <= n < 10 ^ Z.of_nat w ->
  conforms (replicate w is_digit) (zpad w n) = true.
Proof.
  intros Hw Hn. destruct w as [|k]; [lia|].
  destruct (dec_aux_conforms (S (Z.to_nat (Z.log2 n))) n "" [] k Hn eq_refl)
    as (j & Hj & Hc).
  rewrite app_nil_r in Hc. fold (dec n) in Hc.
  unfold zpad. cbn zeta.
  rewrite (conforms_length _ _ Hc), length_replicate.
  replace (replicate (S k) is_digit)
    with (replicate (S k - j) is_digit ++ replicate j is_digit).
  - apply conforms_app; [apply zeros_conforms | exact Hc].
  - rewrite <- replicate_add. f_equal. lia.
Qed.

Lemma valid_datetime_ranges d :
  valid_datetime d = true ->
  1 <= dt_year d <= 9999 /\ 1 <= dt_month d <= 12 /\ 1 <= dt_day d <= 31 /\
  0 <= dt_hour d <= 23 /\ 0 <= dt_minute d <= 59 /\ 0 <= dt_second d <= 59 /\
  0 <= dt_microsecond d <= 999999.
Proof.
  unfold valid_datetime. rewrite !andb_true_iff, !Z.leb_le. tauto.
Qed.

Ltac digits_conform :=
  apply zpad_conforms; [lia | split; [lia | change (10 ^ Z.of_nat 2) with 100;
                                           change (10 ^ Z.of_nat 4) with 10000;
                                           change (10 ^ Z.of_nat 6) with 1000000; lia]].

(** [isoformat] of a valid datetime: four digits, month and day, the
    separator, the time of day, and a fraction of six digits exactly when the
    microsecond field is not zero. *)
Lemma isoformat_conforms d :
  valid_datetime d = true ->
  conforms (iso_shape (negb (dt_microsecond d =? 0))) (isoformat d) = true.
Proof.
  intros Hvalid. apply valid_datetime_ranges in Hvalid.
  unfold isoformat, isoformat_sep, iso_shape.
  do 10 (apply conforms_app; [first [digits_conform | reflexivity] |]).
  destruct (dt_microsecond d =? 0) eqn:Hus; cbn [negb].
  - apply conforms_app; [digits_conform | reflexivity].
  - apply Z.eqb_neq in Hus.
    apply conforms_app; [digits_conform|].
    apply conforms_app; [reflexivity | digits_conform].
Qed.

(** The timestamp of the event, [isoformat] followed by [Z]. *)
Lemma utc_timestamp d :
  valid_datetime d = true -> is_utc_timestamp (isoformat d +:+ "Z") = true.
Proof.
  intros Hvalid. unfold is_utc_timestamp.
  pose proof (isoformat_conforms d Hvalid) as Hiso.
  assert (HZ : conforms [is_char "Z"] "Z" = true) by reflexivity.
  destruct (negb (dt_microsecond d =? 0)).
  - rewrite (conforms_app _ _ _ _ Hiso HZ). apply orb_true_r.
  - by rewrite (conforms_app _ _ _ _ Hiso HZ).
Qed.

(** ** Runs that reach the publish stage *)

(** The identifier that the create stage returns is never empty. *)
Lemma created_identifier_truthy self customer_id w tid w' :
  create_touchpoints_record self customer_id w = (Val (Some tid), w') ->
  truthy (Some tid) = true /\
  touchpoints w' = touchpoints w ++ [new_record tid customer_id] /\
  bus w' = bus w.
Proof.
  intros Hrun.
  destruct (create_touchpoints_record_summary _ _ _ _ _ Hrun)
    as (_ & Hbus & _ & _ & Hid & Hrow & _).
  destruct (Hid _ eq_refl) as [Hnone|Hsome]; [discriminate|].
  injection Hsome as ->.
  destruct (Hrow _ eq_refl) as (Htable & _).
  split; [apply uuid_str_truthy|]. by split.
Qed.

(** A run up to the publish stage, stage by stage. *)
Lemma reaches_publish self w customer_id w1 tid w2 details w3 :
  get_customer_id self (customer_name self) (workflow_entry self w)
  = (Val customer_id, w1) ->
  truthy customer_id = true ->
  create_touchpoints_record self customer_id w1 = (Val (Some tid), w2) ->
  get_customer_details self customer_id w2 = (Val (Some details), w3) ->
  truthy details = true ->
  stop_at_first_failure self w =
  match publish_touchpoints_created_event self tid details w3 with
  | (Raise e, w4) => RaisedIn 4 e w4
  | (Exit c, w4) => ExitedIn 4 c w4
  | (Val event_success, w4) =>
      if negb (truthy event_success) then StoppedAt 4 w4 else Completed w4
  end /\
  touchpoints w3 = touchpoints w ++ [new_record tid customer_id] /\
  touchpoints w2 = touchpoints w3 /\
  bus w3 = bus w /\
  utc_clock w3 = utc_clock w /\
  exists t, traced w2 w3 t /\ Forall (fun e => is_write e = false) t.
Proof.
  intros H1 Hcid H2 H3 Hdet.
  destruct (get_customer_id_summary _ _ _ _ _ H1) as ((Hun1 & _) & Htp1 & Hbus1 & _).
  destruct (created_identifier_truthy _ _ _ _ _ H2) as (Htid & Htp2 & Hbus2).
  destruct (create_touchpoints_record_summary _ _ _ _ _ H2) as ((Hun2 & _) & _).
  destruct (get_customer_details_summary _ _ _ _ _ H3)
    as ((Hun3 & _ & _ & t & Ht & _ & _ & Hall & _) & Htp3 & Hbus3 & _).
  split; [|split; [|split; [|split; [|split]]]].
  - unfold stop_at_first_failure.
    rewrite H1, Hcid. cbn [negb]. rewrite H2, Htid. cbn [negb].
    rewrite H3. change (truthy (Some details)) with (truthy details).
    rewrite Hdet. reflexivity.
  - by rewrite Htp3, Htp2, Htp1.
  - by rewrite Htp3.
  - by rewrite Hbus3, Hbus2, Hbus1.
  - by rewrite (same_clock _ _ Hun3), (same_clock _ _ Hun2), (same_clock _ _ Hun1).
  - exists t. split; [exact Ht|].
    eapply Forall_impl; [exact Hall|]. by intros e [? _].
Qed.

(** C2: the insert succeeded, the publish stage returned [False].  The
    workflow returns [False]; the record that the insert stage wrote is in
    the table at the end, which is the table the insert left: from the end
    of the insert stage on, no [INSERT], no [commit] and no other statement
    than the read of the customer was executed. *)
Theorem publish_failure_keeps_the_record self w customer_id w1 tid w2 details w3 w4 :
  get_customer_id self (customer_name self) (workflow_entry self w)
  = (Val customer_id, w1) ->
  truthy customer_id = true ->
  create_touchpoints_record self customer_id w1 = (Val (Some tid), w2) ->
  get_customer_details self customer_id w2 = (Val (Some details), w3) ->
  truthy details = true ->
  publish_touchpoints_created_event self tid details w3 = (Val false, w4) ->
  let w' := workflow_exit w (failure_record 4) w4 in
  create_touchpoints_for_customer self w = (Val false, w') /\
  touchpoints w' = touchpoints w ++ [new_record tid customer_id] /\
  touchpoints w' = touchpoints w2 /\
  new_record tid customer_id ∈ touchpoints w' /\
  exists t, traced w2 w' t /\
            Forall (fun e => is_write e = false) t /\
            statements t `prefix_of` [SelectCustomerById].
Proof.
  intros H1 Hcid H2 H3 Hdet H4 w'.
  destruct (reaches_publish _ _ _ _ _ _ _ _ H1 Hcid H2 H3 Hdet)
    as (Hp & Htp3 & Htp23 & _ & _ & _).
  destruct (get_customer_details_summary _ _ _ _ _ H3)
    as ((_ & _ & _ & t3 & Ht3 & _ & Hs3 & Hall3 & _) & _).
  destruct (publish_summary _ _ _ _ _ _ H4)
    as ((_ & _ & _ & t4 & Ht4 & _ & Hs4 & Hall4 & _) & (_ & _ & Htp4 & _)).
  rewrite H4 in Hp. cbn in Hp.
  assert (Htable : touchpoints w' = touchpoints w ++ [new_record tid customer_id]).
  { unfold w'. cbn. by rewrite Htp4. }
  split; [by rewrite workflow_refines, Hp|].
  split; [exact Htable|]. split; [by rewrite Htable, Htp23|].
  split; [rewrite Htable; apply elem_of_app; right; by left|].
  exists (t3 ++ t4). split; [|split].
  - exact (traced_trans _ _ _ _ _ Ht3 Ht4).
  - apply Forall_app. split; [|exact Hall4].
    eapply Forall_impl; [exact Hall3|]. by intros e [? _].
  - rewrite statements_app. apply prefix_of_nil_inv in Hs4 as ->.
    by rewrite app_nil_r.
Qed.

Lemma publish_failure_keeps_the_record_witness :
  exists w',
    create_touchpoints_for_customer demo_creator world_bus_down = (Val false, w') /\
    touchpoints w'
    = [new_record "01234567-89ab-4def-8123-456789abcdef" (AStr "c-1")].
Proof.
  pose (w1 := snd (get_customer_id demo_creator (customer_name demo_creator)
                     (workflow_entry demo_creator world_bus_down))).
  pose (w2 := snd (create_touchpoints_record demo_creator (AStr "c-1") w1)).
  pose (details := [("id", AStr "c-1"); ("name", AStr "Example Tech Solutions");
                    ("subscription_tier", AStr "enterprise");
                    ("created_at", AStr "2024-01-02T03:04:05");
                    ("updated_at", ANone)] : dict atom).
  pose (w3 := snd (get_customer_details demo_creator (AStr "c-1") w2)).
  pose (w4 := snd (publish_touchpoints_created_event demo_creator
                     "01234567-89ab-4def-8123-456789abcdef" details w3)).
  destruct (publish_failure_keeps_the_record demo_creator world_bus_down
              (AStr "c-1") w1 "01234567-89ab-4def-8123-456789abcdef" w2
              details w3 w4) as (Hrun & Htable & _).
  - vm_compute. reflexivity.
  - reflexivity.
  - vm_compute. reflexivity.
  - vm_compute. reflexivity.
  - reflexivity.
  - vm_compute. reflexivity.
  - eexists. split; [exact Hrun | exact Htable].
Defined.

(** ** Successful runs *)

(** A run that returns [True] went through the four stages, each fed from
    the results of the ones before it. *)
Lemma completed_inv self w w' :
  create_touchpoints_for_customer self w = (Val true, w') ->
  exists customer_id w1 tid w2 details w3 w4,
    get_customer_id self (customer_name self) (workflow_entry self w)
    = (Val customer_id, w1) /\
    truthy customer_id = true /\
    create_touchpoints_record self customer_id w1 = (Val (Some tid), w2) /\
    get_customer_details self customer_id w2 = (Val (Some details), w3) /\
    truthy details = true /\
    publish_touchpoints_created_event self tid details w3 = (Val true, w4) /\
    w' = workflow_exit w
           (INFO, "Successfully created touchpoints and published event") w4.
Proof.
  rewrite workflow_refines. unfold stop_at_first_failure.
  destruct (get_customer_id _ _ _) as [[cid|e|c] w1] eqn:E1; [|done..].
  destruct (truthy cid) eqn:Hcid; [|done]. cbn [negb].
  destruct (create_touchpoints_record _ _ _) as [[[tid|]|e|c] w2] eqn:E2; [| |done..].
  2: { cbn. done. }
  destruct (truthy (Some tid)) eqn:Htid; [|done]. cbn [negb].
  destruct (get_customer_details _ _ _) as [[[details|]|e|c] w3] eqn:E3; [| |done..].
  2: { cbn. done. }
  destruct (truthy (Some details)) eqn:Hdet; [|done]. cbn [negb some_str some_dict default].
  destruct (publish_touchpoints_created_event _ _ _ _) as [[[|]|e|c] w4] eqn:E4;
    [|done..].
  cbn. intros [= <-].
  by exists cid, w1, tid, w2, details, w3, w4.
Qed.



(** ** The entry point *)

Lemma init_exits_with_1 w c w0 :
  TouchpointsCreator_init w = (Exit c, w0) -> c = 1.
Proof.
  rewrite init_run. destruct (py_int _); [|done].
  destruct (truthy _); [|done]. congruence.
Qed.

(** What [main] does once the constructor has returned a creator. *)
Lemma main_after_init w self w0 :
  TouchpointsCreator_init w = (Val self, w0) ->
  exists code w',
    main w = (Exit code, w') /\
    (code = 0 \/ code = 1) /\
    (code = 0 <-> exists w4, stop_at_first_failure self w0 = Completed w4).
Proof.
  intros Hinit. unfold main, try_except.
  rewrite (bind_val _ _ _ _ _ Hinit). unfold bind at 1.
  rewrite workflow_refines.
  destruct (progress_trace self w0) as (Hnoexit & _).
  destruct (stop_at_first_failure self w0) as [k wk|w4|k e wk|k c wk] eqn:Hp; cbn.
  - exists 1. eexists. split; [reflexivity|]. split; [by right|].
    split; [done | by intros [? ?]].
  - exists 0. eexists. split; [reflexivity|]. split; [by left|].
    split; [by exists w4 | done].
  - exists 1. eexists. split; [reflexivity|]. split; [by right|].
    split; [done | by intros [? ?]].
  - by destruct (Hnoexit k c wk).
Qed.

(** C7: whatever the world, [main] ends the process through [sys.exit],
    with status 0 or 1, and the status is 0 exactly when the constructor
    accepted the configuration and the four stages all succeeded.  In
    particular a validation failure, a stage that signals failure, and an
    exception raised anywhere on the way all give status 1. *)
Theorem main_exit_status w :
  exists code w',
    main w = (Exit code, w') /\
    exit_status (fst (main w)) = code /\
    (code = 0 \/ code = 1) /\
    (code = 0 <-> all_stages_succeed w) /\
    (forall c w0, TouchpointsCreator_init w = (Exit c, w0) -> code = 1) /\
    (forall e w0, TouchpointsCreator_init w = (Raise e, w0) -> code = 1) /\
    (forall self w0 k wk,
        TouchpointsCreator_init w = (Val self, w0) ->
        stop_at_first_failure self w0 = StoppedAt k wk -> code = 1) /\
    (forall self w0 k e wk,
        TouchpointsCreator_init w = (Val self, w0) ->
        stop_at_first_failure self w0 = RaisedIn k e wk -> code = 1).
Proof.
  assert (Hcore : exists code w',
             main w = (Exit code, w') /\ (code = 0 \/ code = 1) /\
             (code = 0 <-> all_stages_succeed w)).
  { destruct (TouchpointsCreator_init w) as [[self|e|c] w0] eqn:Hinit.
    - destruct (main_after_init _ _ _ Hinit) as (code & w' & Hmain & Hcode & Hiff).
      exists code, w'. split; [done|]. split; [done|]. rewrite Hiff. split.
      + intros [w4 Hp]. by exists self, w0, w4.
      + intros (self' & w0' & w4 & Hinit' & Hp). rewrite Hinit in Hinit'.
        injection Hinit' as <- <-. by exists w4.
    - exists 1. eexists. split; [|split; [by right|split; [done|]]].
      + unfold main, try_except. rewrite (bind_raise _ _ _ _ _ Hinit). reflexivity.
      + intros (? & ? & ? & Hi & _). by rewrite Hinit in Hi.
    - pose proof (init_exits_with_1 _ _ _ Hinit) as ->.
      exists 1. eexists. split; [|split; [by right|split; [done|]]].
      + unfold main, try_except. rewrite (bind_exit _ _ _ _ _ Hinit). reflexivity.
      + intros (? & ? & ? & Hi & _). by rewrite Hinit in Hi. }
  destruct Hcore as (code & w' & Hmain & Hcode & Hiff).
  exists code, w'. split; [done|]. split; [by rewrite Hmain|]. split; [done|].
  split; [done|].
  assert (Hfail : ~ all_stages_succeed w -> code = 1).
  { intros Hnot. destruct Hcode as [-> | ->]; [|done]. destruct Hnot. by apply Hiff. }
  repeat split.
  - intros c w0 Hinit. apply Hfail. intros (? & ? & ? & Hinit' & _). congruence.
  - intros e w0 Hinit. apply Hfail. intros (? & ? & ? & Hinit' & _). congruence.
  - intros self w0 k wk Hinit Hp. apply Hfail.
    intros (? & ? & ? & Hinit' & Hp'). congruence.
  - intros self w0 k e wk Hinit Hp. apply Hfail.
    intros (? & ? & ? & Hinit' & Hp'). congruence.
Qed.

(** Both statuses occur. *)
Example main_succeeds : fst (main full_world) = Exit 0.
Proof. vm_compute. reflexivity. Qed.

Example main_fails_without_customer : fst (main (set_environ full_environ blank_world)) = Exit 1.
Proof. vm_compute. reflexivity. Qed.

(** * Further properties of the code *)

(** ** The constructor *)

Lemma missing_vars_nil env : missing_vars env = [] <-> all_supplied env.
Proof.
  split.
  - intros Hnil var Hreq. destruct (env !! var) as [s|] eqn:Hget.
    + exists s. split; [done|]. intros ->.
      assert (Hin : var ∈ missing_vars env) by (apply elem_of_missing_vars; auto).
      rewrite Hnil in Hin. by apply elem_of_nil in Hin.
    + assert (Hin : var ∈ missing_vars env) by (apply elem_of_missing_vars; auto).
      rewrite Hnil in Hin. by apply elem_of_nil in Hin.
  - intros Hall. destruct (missing_vars env) as [|var l] eqn:Hm; [done|].
    assert (Hin : var ∈ missing_vars env) by (rewrite Hm; by left).
    apply elem_of_missing_vars in Hin as (Hreq & Hunset).
    destruct (Hall var Hreq) as (s & Hs & Hne).
    destruct Hunset as [Hnone|Hempty]; congruence.
Qed.





(** ** The datastore stages, call by call *)

Lemma well_weaken k n answers : well (k + n) answers -> well n answers.
Proof.
  unfold well. intros Hall.
  replace (take n answers) with (take n (take (k + n) answers))
    by (rewrite take_take; f_equal; lia).
  by apply Forall_take.
Qed.

(** A client-library call whose answer is known. *)
Lemma wp_library_call_answer {A} ev (effect : M A) w a rest
    (Q : outcome A -> world -> Prop) :
  next_answer (script w) = (a, rest) ->
  match a with
  | None => wp effect (set_script rest (set_calls (calls w ++ [ev]) w)) Q
  | Some e => Q (Raise e) (set_script rest (set_calls (calls w ++ [ev]) w))
  end ->
  wp (library_call ev effect) w Q.
Proof.
  intros Hnext HQ. unfold wp, library_call. rewrite Hnext. by destruct a.
Qed.

Lemma wp_is_connected_answer w b rest (Q : outcome bool -> world -> Prop) :
  next_alive (alive w) = (b, rest) ->
  Q (Val b) (set_alive rest (set_calls (calls w ++ [EvIsConnected]) w)) ->
  wp connection_is_connected w Q.
Proof.
  intros Hnext HQ. unfold wp, connection_is_connected. by rewrite Hnext.
Qed.

(** X4: when [connect] raises a datastore error, each of the three
    datastore methods catches it: it logs the message under its own heading
    and returns [None].  The connection attempt is the only library call:
    nothing was bound, so nothing is released, no identifier is drawn and no
    table is touched. *)
Theorem connect_error_is_caught self name customer_id w msg rest :
  script w = Some (MySQLError msg) :: rest ->
  let w1 := set_script rest
              (set_calls (calls w ++ [EvDbConnect (db_config_of self)]) w) in
  get_customer_id self name w
  = (Val ANone,
     set_logs (logs w ++ [(ERROR, "Database error while looking up customer: "
                                  +:+ msg)]) w1) /\
  create_touchpoints_record self customer_id w
  = (Val None,
     set_logs (logs w ++ [(ERROR, "Database error while creating touchpoints record: "
                                  +:+ msg)]) w1) /\
  get_customer_details self customer_id w
  = (Val None,
     set_logs (logs w ++ [(ERROR, "Database error while fetching customer details: "
                                  +:+ msg)]) w1).
Proof.
  intros Hscript w1.
  assert (Hconnect : mysql_connect (db_config_of self) (set_frame [] w)
                     = (Raise (MySQLError msg),
                        set_script rest
                          (set_calls (calls w ++ [EvDbConnect (db_config_of self)])
                             (set_frame [] w)))).
  { unfold mysql_connect, library_call. cbn [script set_frame]. by rewrite Hscript. }
  repeat split.
  - unfold get_customer_id, call_method, try_finally, try_except.
    rewrite (bind_raise _ _ _ _ _ Hconnect). cbn. by destruct w.
  - unfold create_touchpoints_record, call_method, try_finally, try_except.
    rewrite (bind_raise _ _ _ _ _ Hconnect). cbn. by destruct w.
  - unfold get_customer_details, call_method, try_finally, try_except.
    rewrite (bind_raise _ _ _ _ _ Hconnect). cbn. by destruct w.
Qed.

Lemma connect_error_is_caught_witness :
  fst (get_customer_id demo_creator (Some "Example Tech Solutions")
         (demo_world [Some (MySQLError "Can't connect to MySQL server")]))
  = Val ANone.
Proof.
  destruct (connect_error_is_caught demo_creator (Some "Example Tech Solutions")
              ANone (demo_world [Some (MySQLError "Can't connect to MySQL server")])
              "Can't connect to MySQL server" []) as (Hlookup & _).
  - reflexivity.
  - by rewrite Hlookup.
Defined.

(** X5: [connect] goes well, [cursor()] raises a datastore error, and the
    connection still reports itself connected.  The [except] clause logs the
    error and is about to return [None], but the [finally] block then reads
    the local [cursor], which was never bound: each of the three datastore
    methods raises [UnboundLocalError] instead of returning, and the
    connection is not closed (the last call is [is_connected]). *)
Theorem cursor_error_leaves_cursor_unbound self name customer_id w msg rest :
  script w = None :: Some (MySQLError msg) :: rest ->
  fst (next_alive (alive w)) = true ->
  let e := UnboundLocalError
             "cannot access local variable 'cursor' where it is not associated with a value" in
  let trace dictionary :=
    calls w ++ [EvDbConnect (db_config_of self); EvCursor dictionary; EvIsConnected] in
  (fst (get_customer_id self name w) = Raise e /\
   calls (snd (get_customer_id self name w)) = trace false) /\
  (fst (create_touchpoints_record self customer_id w) = Raise e /\
   calls (snd (create_touchpoints_record self customer_id w)) = trace false) /\
  (fst (get_customer_details self customer_id w) = Raise e /\
   calls (snd (get_customer_details self customer_id w)) = trace true).
Proof.
  intros Hscript Halive e trace. destruct w as [env cust tp unc rs bs scr alv ent dr clk cls lg so fr].
  cbn in Hscript, Halive. subst scr.
  destruct alv as [|[] alv]; cbn in Halive; try discriminate;
    (repeat split; cbn; by rewrite <- ?app_assoc).
Qed.

Lemma cursor_error_leaves_cursor_unbound_witness :
  fst (get_customer_id demo_creator (Some "Example Tech Solutions")
         (demo_world [None; Some (MySQLError "MySQL Connection not available")]))
  = Raise (UnboundLocalError
             "cannot access local variable 'cursor' where it is not associated with a value").
Proof.
  destruct (cursor_error_leaves_cursor_unbound demo_creator
              (Some "Example Tech Solutions") ANone
              (demo_world [None; Some (MySQLError "MySQL Connection not available")])
              "MySQL Connection not available" []) as ((Hlookup & _) & _).
  - reflexivity.
  - reflexivity.
  - exact Hlookup.
Defined.

(** ** The stages when the client libraries raise nothing *)

Ltac solve_well :=
  first [ eassumption
        | eapply (well_weaken 1); eassumption
        | eapply (well_weaken 2); eassumption
        | eapply (well_weaken 3); eassumption ].

Ltac solve_calm :=
  split; [reflexivity | world_simpl; split; [reflexivity | solve_well]].

Lemma lookup_calm n self name w :
  well (6 + n) (script w) ->
  exists w1,
    get_customer_id self name w = (Val (lookup_value (customers_with_name name w)), w1) /\
    (logs w1 = logs w ++ [lookup_record name (customers_with_name name w)] /\
     well n (script w1)).
Proof.
  intros Hwell. apply wp_result.
  unfold get_customer_id, release_connection, mysql_connect, connection_cursor,
    cursor_execute, cursor_close, connection_close.
  destruct (customers_with_name name w) as [|c rows] eqn:Hmatch;
    unfold customers_with_name in Hmatch; repeat wp_eval.
  - eapply wp_cursor_fetchone_none;
      [world_simpl; eassumption | world_simpl; rewrite Hmatch; reflexivity |].
    intros; world_simpl. repeat wp_eval; solve_calm.
  - eapply wp_cursor_fetchone_row;
      [world_simpl; eassumption | world_simpl; rewrite Hmatch; reflexivity |].
    intros; world_simpl. repeat wp_eval; solve_calm.
Qed.

Lemma create_calm n self customer_id w :
  well (6 + n) (script w) ->
  exists w2,
    create_touchpoints_record self customer_id w
    = (Val (Some (next_touchpoints_id w)), w2) /\
    (logs w2 = logs w ++ [(INFO, "Created touchpoints record " +:+ next_touchpoints_id w
                                 +:+ " for customer " +:+ py_str customer_id)] /\
     well n (script w2)).
Proof.
  intros Hwell. apply wp_result.
  unfold create_touchpoints_record, release_connection, mysql_connect,
    connection_cursor, cursor_execute, connection_commit, cursor_close,
    connection_close.
  repeat wp_eval; solve_calm.
Qed.

Lemma details_calm n self customer_id w :
  well (6 + n) (script w) ->
  exists w3,
    get_customer_details self customer_id w
    = (details_value (customers_with_id customer_id w), w3) /\
    (logs w3 = logs w /\ well n (script w3)).
Proof.
  intros Hwell. apply wp_result.
  unfold get_customer_details, release_connection, mysql_connect, connection_cursor,
    cursor_execute, cursor_close, connection_close.
  destruct (customers_with_id customer_id w) as [|c rows] eqn:Hmatch;
    unfold customers_with_id in Hmatch; repeat wp_eval.
  - eapply wp_cursor_fetchone_none;
      [world_simpl; eassumption | world_simpl; rewrite Hmatch; reflexivity |].
    intros; world_simpl. repeat wp_eval; solve_calm.
  - eapply wp_cursor_fetchone_row;
      [world_simpl; eassumption | world_simpl; rewrite Hmatch; reflexivity |].
    intros; world_simpl. repeat wp_eval.
    unfold details_value, iso_column, isoformat_column, snapshot.
    change (dict_get "created_at" (row_by_id c)) with (Some (cust_created_at c)).
    cbn beta iota.
    destruct (cust_created_at c) as [|z1|s1|d1] eqn:Hcreated;
      cbn [truthy truthy_atom];
      repeat first [wp_eval | apply wp_raise];
      try solve_calm.
    all: lazymatch goal with
         | |- context [dict_get "updated_at" ?r] =>
             change (dict_get "updated_at" r) with (Some (cust_updated_at c))
         end; cbn beta iota.
    all: destruct (cust_updated_at c) as [|z2|s2|d2] eqn:Hupdated;
      cbn [truthy truthy_atom];
      repeat first [wp_eval | apply wp_raise];
      try solve_calm.
    all: try (split; [unfold row_by_id; rewrite ?Hcreated, ?Hupdated; reflexivity
                     | world_simpl; split; [reflexivity | solve_well]]).
Qed.

Lemma publish_calm n self touchpoints_id customer_details w body :
  message_text w touchpoints_id customer_details = Some body ->
  well (3 + n) (script w) ->
  exists w4,
    publish_touchpoints_created_event self touchpoints_id customer_details w
    = (Val true, w4) /\
    (logs w4 = logs w ++ [(INFO, "Published " +:+ nats_subject self
                                 +:+ " event for touchpoints " +:+ touchpoints_id)] /\
     (bus w4 = bus w ++ [(nats_subject self, body)] /\
      well n (script w4))).
Proof.
  intros Hmsg Hwell. apply wp_result. unfold message_text in Hmsg.
  unfold publish_touchpoints_created_event, nats_connect, json_dumps_encode,
    nc_publish, nc_close.
  repeat wp_eval. rewrite Hmsg. repeat wp_eval.
  split; [reflexivity|]. world_simpl.
  split; [reflexivity|]. split; [reflexivity | solve_well].
Qed.

(** X6: when the client library raises nothing, the lookup returns the
    identifier of the first row whose name equals the given name, as it
    is stored, and logs that customer as found; when no row has the name it
    logs that and returns [None].  Names compare as SQL does: a NULL name
    matches nothing. *)
Theorem lookup_returns_first_match self name w :
  well 6 (script w) ->
  let rows := customers_with_name name w in
  fst (get_customer_id self name w) = Val (lookup_value rows) /\
  logs (snd (get_customer_id self name w)) = logs w ++ [lookup_record name rows].
Proof.
  intros Hwell rows.
  destruct (lookup_calm 0 self name w Hwell) as (w1 & -> & Hlogs & _). by split.
Qed.

Lemma lookup_returns_first_match_witness :
  fst (get_customer_id demo_creator (Some "Example Tech Solutions") (demo_world []))
  = Val (AStr "c-1").
Proof.
  destruct (lookup_returns_first_match demo_creator (Some "Example Tech Solutions")
              (demo_world [])) as [Hvalue _].
  - constructor.
  - exact Hvalue.
Defined.



(** ** The publish stage *)

Lemma json_encode_dict_val level d :
  json_encode level (dict_val d) = None <-> holds_datetime d = true.
Proof.
  unfold dict_val, holds_datetime.
  induction d as [|[k a] d IH]; cbn [map json_encode existsb fst snd] in *.
  - done.
  - lazymatch type of IH with
    | option_map _ ?X = None <-> _ => destruct X as [l|]
    end; cbn [option_map] in IH.
    + destruct a; cbn; intuition congruence.
    + destruct a; cbn; intuition congruence.
Qed.

Lemma payload_refused_iff now touchpoints_id customer_details :
  json_dumps_indent2 (event_payload now touchpoints_id customer_details) = None
  <-> holds_datetime customer_details = true.
Proof.
  rewrite <- (json_encode_dict_val 1).
  unfold json_dumps_indent2, event_payload.
  cbn [json_encode option_map map next_actions].
  destruct (json_encode 1 (dict_val customer_details)); cbn; done.
Qed.

Lemma iso_column_no_datetime a b : iso_column a = Some b -> is_datetime b = false.
Proof.
  unfold iso_column. destruct a as [|z|s|d]; cbn [truthy truthy_atom truthy_datetime];
    try destruct (truthy _); intros H; try discriminate H;
    injection H as <-; reflexivity.
Qed.



(** X9: whatever the client libraries do, the publish stage returns a
    boolean: every exception of its [try] block is caught and turned into
    [False], and the process is not exited.  It touches no table, draws no
    identifier, and the bus gains at most the one message, which it has
    gained when the stage returns [True]. *)
Theorem publish_stage_always_returns self touchpoints_id customer_details w :
  let r := publish_touchpoints_created_event self touchpoints_id customer_details w in
  (exists b, fst r = Val b) /\
  corporate_customers (snd r) = corporate_customers w /\
  touchpoints (snd r) = touchpoints w /\
  draws (snd r) = draws w /\
  (bus (snd r) = bus w \/
   exists body, message_text w touchpoints_id customer_details = Some body /\
                bus (snd r) = bus w ++ [(nats_subject self, body)]) /\
  (fst r = Val true -> bus (snd r) <> bus w).
Proof.
  intros r. destruct r as [o w'] eqn:Hrun. unfold r in Hrun.
  destruct (publish_summary _ _ _ _ _ _ Hrun)
    as (_ & (Hun & _ & Htp & Hd & Hb & _ & Hbus & Hsent)).
  cbn [fst snd]. split; [exact Hb|]. split; [apply Hun|].
  split; [exact Htp|]. split; [exact Hd|]. split; [exact Hbus|].
  intros Htrue. destruct (Hsent Htrue) as (body & _ & -> & _).
  intros Heq. apply (f_equal length) in Heq. rewrite length_app in Heq.
  cbn in Heq. lia.
Qed.

(** X10: whatever the client library does, the create stage does not exit
    the process, leaves the customers and the bus alone, and the table gains
    at most the one record of the identifier it drew; when it returns [None]
    the table is as before (a row inserted but not committed is dropped with
    the connection). *)
Theorem create_stage_stores_at_most_its_record self customer_id w :
  let r := create_touchpoints_record self customer_id w in
  let row := new_record (next_touchpoints_id w) customer_id in
  (forall c, fst r <> Exit c) /\
  corporate_customers (snd r) = corporate_customers w /\
  bus (snd r) = bus w /\
  (touchpoints (snd r) = touchpoints w \/ touchpoints (snd r) = touchpoints w ++ [row]) /\
  (fst r = Val None -> touchpoints (snd r) = touchpoints w) /\
  (forall tid, fst r = Val (Some tid) -> touchpoints (snd r) = touchpoints w ++ [row]).
Proof.
  intros r row. destruct r as [o w'] eqn:Hrun. unfold r in Hrun.
  destruct (create_touchpoints_record_summary _ _ _ _ _ Hrun)
    as ((Hun & _ & Hex & _) & Hbus & (Htable & _ & _ & Hrow & Hnone)).
  cbn [fst snd]. split; [exact Hex|]. split; [apply Hun|]. split; [exact Hbus|].
  split; [exact Htable|]. split; [exact Hnone|].
  intros tid Htid. by destruct (Hrow tid Htid).
Qed.

(** A client-library call whose answer is read from the script. *)
Ltac wp_answer :=
  eapply wp_library_call_answer;
  [ world_simpl;
    try match goal with H : script _ = _ |- _ => rewrite H end;
    reflexivity
  | cbn beta iota; world_simpl ].

(** X11: the message is published, then [nc.close()] raises.  The stage
    logs the publication, then the error, and returns [False] although the
    message is on the bus. *)
Theorem close_failure_reports_a_delivered_message
    self touchpoints_id customer_details w body e rest :
  message_text w touchpoints_id customer_details = Some body ->
  script w = None :: None :: Some e :: rest ->
  let r := publish_touchpoints_created_event self touchpoints_id customer_details w in
  fst r = Val false /\
  bus (snd r) = bus w ++ [(nats_subject self, body)] /\
  logs (snd r) = logs w ++ [(INFO, "Published " +:+ nats_subject self
                                   +:+ " event for touchpoints " +:+ touchpoints_id);
                            publish_error_record e].
Proof.
  intros Hmsg Hscript r.
  assert (Hrun : exists w4,
             publish_touchpoints_created_event self touchpoints_id customer_details w
             = (Val false, w4) /\
             (bus w4 = bus w ++ [(nats_subject self, body)] /\
              logs w4 = logs w ++ [(INFO, "Published " +:+ nats_subject self
                                          +:+ " event for touchpoints " +:+ touchpoints_id);
                                   publish_error_record e])).
  { apply wp_result. unfold message_text in Hmsg.
    unfold publish_touchpoints_created_event, nats_connect, json_dumps_encode,
      nc_publish, nc_close.
    repeat wp_eval. wp_answer. repeat wp_eval. rewrite Hmsg. repeat wp_eval.
    wp_answer. repeat wp_eval. wp_answer.
    unfold dispatch, publish_error_record, is_Exception.
    repeat wp_eval;
      (split; [reflexivity|]); world_simpl; (split; [reflexivity|]);
      by rewrite <- app_assoc. }
  destruct Hrun as (w4 & Hrun & Hbus & Hlogs). unfold r. rewrite Hrun. by split.
Qed.

Lemma close_failure_reports_a_delivered_message_witness :
  fst (publish_touchpoints_created_event demo_creator
         "01234567-89ab-4def-8123-456789abcdef" [("id", AStr "c-1")]
         (demo_world [None; None; Some (NatsTimeoutError "timeout")]))
  = Val false.
Proof.
  destruct (close_failure_reports_a_delivered_message demo_creator
              "01234567-89ab-4def-8123-456789abcdef" [("id", AStr "c-1")]
              (demo_world [None; None; Some (NatsTimeoutError "timeout")])
              (default "" (message_text (demo_world [])
                             "01234567-89ab-4def-8123-456789abcdef" [("id", AStr "c-1")]))
              (NatsTimeoutError "timeout") []) as (Hvalue & _).
  - vm_compute. reflexivity.
  - reflexivity.
  - exact Hvalue.
Defined.

(** ** The workflow as a whole *)

Lemma untouched_entry self w w' :
  untouched (workflow_entry self w) w' ->
  environ w' = environ w /\ corporate_customers w' = corporate_customers w /\
  entropy w' = entropy w /\ utc_clock w' = utc_clock w.
Proof. intros []. by repeat split. Qed.

(** X12: whatever the client libraries do, a run of the workflow does not
    exit the process, changes neither the environment nor the customers, and
    leaves behind nothing, or one new record, or one new record and one
    message whose payload carries the identifier of that record.  So a
    message is never published without its record, and nothing is written
    or published twice. *)
Theorem workflow_writes_at_most_once self w :
  let r := create_touchpoints_for_customer self w in
  (forall c, fst r <> Exit c) /\
  environ (snd r) = environ w /\
  corporate_customers (snd r) = corporate_customers w /\
  frame (snd r) = frame w /\
  at_most_once self w (snd r).
Proof.
  intros r. unfold r. rewrite workflow_refines.
  assert (Hend : forall p wk,
             (forall k c wk', p <> ExitedIn k c wk') ->
             (p = Completed wk \/ exists k, p = StoppedAt k wk \/ exists e, p = RaisedIn k e wk) ->
             environ wk = environ w -> corporate_customers wk = corporate_customers w ->
             at_most_once self w wk ->
             (forall c, fst (conclude w p) <> Exit c) /\
             environ (snd (conclude w p)) = environ w /\
             corporate_customers (snd (conclude w p)) = corporate_customers w /\
             frame (snd (conclude w p)) = frame w /\
             at_most_once self w (snd (conclude w p))).
  { intros p wk Hne [-> | (k & [-> | (e & ->)])] Henv Hcust Hat; by cbn. }
  unfold stop_at_first_failure.
  destruct (get_customer_id _ _ _) as [o1 w1] eqn:E1.
  destruct (get_customer_id_summary _ _ _ _ _ E1)
    as ((Hun1 & _ & Hex1 & _) & Htp1 & Hbus1 & _).
  destruct (untouched_entry _ _ _ Hun1) as (Henv1 & Hcust1 & _ & Hclock1).
  cbn [workflow_entry touchpoints bus set_logs set_frame] in Htp1, Hbus1.
  assert (Hat1 : at_most_once self w w1) by (by left).
  destruct o1 as [cid|e|c]; [| |by destruct (Hex1 c)].
  2: { apply (Hend _ w1); eauto. }
  destruct (negb (truthy cid)).
  { apply (Hend _ w1); eauto. }
  destruct (create_touchpoints_record _ _ _) as [o2 w2] eqn:E2.
  destruct (create_touchpoints_record_summary _ _ _ _ _ E2)
    as ((Hun2 & _ & Hex2 & _) & Hbus2 & (Htable2 & _ & Hid2 & Hrow2 & Hnone2)).
  assert (Henv2 : environ w2 = environ w) by (by rewrite (same_environ _ _ Hun2)).
  assert (Hcust2 : corporate_customers w2 = corporate_customers w)
    by (by rewrite (same_customers _ _ Hun2)).
  assert (Hclock2 : utc_clock w2 = utc_clock w) by (by rewrite (same_clock _ _ Hun2)).
  assert (Hat2 : at_most_once self w w2).
  { destruct Htable2 as [Hsame|Hone].
    - left. by rewrite Hsame, Hbus2.
    - right. eexists _, _. rewrite Hone, Htp1. split; [reflexivity|].
      left. by rewrite Hbus2. }
  destruct o2 as [tid|e|c]; [| |by destruct (Hex2 c)].
  2: { apply (Hend _ w2); eauto. }
  destruct (negb (truthy tid)) eqn:Htid.
  { apply (Hend _ w2); eauto. }
  destruct tid as [tid|]; [|done].
  destruct (Hid2 _ eq_refl) as [Hid|Hid]; [done|]. injection Hid as ->.
  destruct (Hrow2 _ eq_refl) as (Hone2 & _).
  destruct (get_customer_details _ _ _) as [o3 w3] eqn:E3.
  destruct (get_customer_details_summary _ _ _ _ _ E3)
    as ((Hun3 & _ & Hex3 & _) & Htp3 & Hbus3 & _).
  assert (Henv3 : environ w3 = environ w) by (by rewrite (same_environ _ _ Hun3)).
  assert (Hcust3 : corporate_customers w3 = corporate_customers w)
    by (by rewrite (same_customers _ _ Hun3)).
  assert (Hclock3 : utc_clock w3 = utc_clock w) by (by rewrite (same_clock _ _ Hun3)).
  assert (Hat3 : at_most_once self w w3).
  { right. eexists _, _. rewrite Htp3, Hone2, Htp1. split; [reflexivity|].
    left. by rewrite Hbus3, Hbus2. }
  destruct o3 as [details|e|c]; [| |by destruct (Hex3 c)].
  2: { apply (Hend _ w3); eauto. }
  destruct (negb (truthy details)).
  { apply (Hend _ w3); eauto. }
  destruct (publish_touchpoints_created_event _ _ _ _) as [o4 w4] eqn:E4.
  destruct (publish_summary _ _ _ _ _ _ E4)
    as ((Hun4 & _ & Hex4 & _) & (_ & _ & Htp4 & _ & _ & _ & Hbus4 & _)).
  assert (Henv4 : environ w4 = environ w) by (by rewrite (same_environ _ _ Hun4)).
  assert (Hcust4 : corporate_customers w4 = corporate_customers w)
    by (by rewrite (same_customers _ _ Hun4)).
  assert (Hat4 : at_most_once self w w4).
  { right. exists (next_touchpoints_id w1), cid.
    rewrite Htp4, Htp3, Hone2, Htp1. split; [reflexivity|].
    destruct Hbus4 as [Hsame|(body & Htext & Hsent)].
    - left. by rewrite Hsame, Hbus3, Hbus2.
    - right. exists (some_dict details), body.
      unfold message_text in Htext. rewrite Hclock3 in Htext.
      split; [exact Htext|]. by rewrite Hsent, Hbus3, Hbus2, Hbus1. }
  destruct o4 as [ok|e|c]; [| |by destruct (Hex4 c)].
  2: { apply (Hend _ w4); eauto. }
  destruct (negb (truthy ok)); apply (Hend _ w4); eauto.
Qed.

Lemma details_value_truthy rows details :
  details_value rows = Val (Some details) -> truthy details = true.
Proof.
  unfold details_value. destruct rows as [|c rows]; [done|].
  destruct (iso_column _); [|done]. destruct (iso_column _); [|done].
  by intros [= <-].
Qed.

(** A run in which every stage finds what it needs and no library call
    raises, with what it leaves for a run that follows. *)
Lemma workflow_calm n self w c rows details :
  well (21 + n) (script w) ->
  customers_with_name (customer_name self) w = c :: rows ->
  truthy (cust_id c) = true ->
  details_value (customers_with_id (cust_id c) w) = Val (Some details) ->
  holds_datetime details = false ->
  exists body w',
    create_touchpoints_for_customer self w = (Val true, w') /\
    json_dumps_indent2 (event_payload (utc_clock w) (next_touchpoints_id w) details)
    = Some body /\
    touchpoints w' = touchpoints w ++ [new_record (next_touchpoints_id w) (cust_id c)] /\
    bus w' = bus w ++ [(nats_subject self, body)] /\
    logs w' = logs w ++
      [(INFO, "Creating touchpoints for customer: "
              +:+ py_str (str_param (customer_name self)));
       lookup_record (customer_name self) (c :: rows);
       (INFO, "Created touchpoints record " +:+ next_touchpoints_id w
              +:+ " for customer " +:+ py_str (cust_id c));
       (INFO, "Published " +:+ nats_subject self
              +:+ " event for touchpoints " +:+ next_touchpoints_id w);
       (INFO, "Successfully created touchpoints and published event")] /\
    (well n (script w') /\ corporate_customers w' = corporate_customers w /\
     entropy w' = entropy w /\ draws w' = S (draws w) /\ utc_clock w' = utc_clock w).
Proof.
  intros Hwell Hname Hcid Hdetails Hplain.
  destruct (lookup_calm (15 + n) self (customer_name self) (workflow_entry self w) Hwell)
    as (w1 & E1 & Hlogs1 & Hwell1).
  change (customers_with_name (customer_name self) (workflow_entry self w))
    with (customers_with_name (customer_name self) w) in E1, Hlogs1.
  rewrite Hname in E1, Hlogs1. cbn [lookup_value] in E1.
  destruct (get_customer_id_summary _ _ _ _ _ E1) as ((Hun1 & _) & Htp1 & Hbus1 & Hd1).
  destruct (untouched_entry _ _ _ Hun1) as (_ & Hcust1 & Hent1 & Hclock1).
  cbn [workflow_entry touchpoints bus draws logs set_logs set_frame]
    in Htp1, Hbus1, Hd1, Hlogs1.
  assert (Hnext : next_touchpoints_id w1 = next_touchpoints_id w).
  { unfold next_touchpoints_id. by rewrite Hent1, Hd1. }
  destruct (create_calm (9 + n) self (cust_id c) w1 Hwell1) as (w2 & E2 & Hlogs2 & Hwell2).
  rewrite Hnext in E2, Hlogs2.
  destruct (create_touchpoints_record_summary _ _ _ _ _ E2)
    as ((Hun2 & _) & Hbus2 & (_ & _ & _ & Hrow2 & _)).
  destruct (Hrow2 _ eq_refl) as (Htp2 & Hd2). rewrite Hnext in Htp2.
  destruct (details_calm (3 + n) self (cust_id c) w2 Hwell2) as (w3 & E3 & Hlogs3 & Hwell3).
  assert (Hcust2 : corporate_customers w2 = corporate_customers w)
    by (by rewrite (same_customers _ _ Hun2)).
  unfold customers_with_id in E3. rewrite Hcust2 in E3.
  fold (customers_with_id (cust_id c) w) in E3. rewrite Hdetails in E3.
  destruct (get_customer_details_summary _ _ _ _ _ E3)
    as ((Hun3 & _) & Htp3 & Hbus3 & Hd3).
  assert (Hclock3 : utc_clock w3 = utc_clock w).
  { by rewrite (same_clock _ _ Hun3), (same_clock _ _ Hun2). }
  destruct (json_dumps_indent2
              (event_payload (utc_clock w) (next_touchpoints_id w) details))
    as [body|] eqn:Hjson.
  2: { apply payload_refused_iff in Hjson. congruence. }
  assert (Htext : message_text w3 (next_touchpoints_id w) details = Some body).
  { unfold message_text. by rewrite Hclock3. }
  destruct (publish_calm n self _ _ w3 body Htext Hwell3)
    as (w4 & E4 & Hlogs4 & Hbus4 & Hwell4).
  destruct (publish_summary _ _ _ _ _ _ E4) as ((Hun4 & _) & (_ & _ & Htp4 & Hd4 & _)).
  exists body. eexists. split; [|split; [reflexivity|]].
  - rewrite workflow_refines. unfold stop_at_first_failure.
    rewrite E1, Hcid. cbn [negb]. rewrite E2.
    change (truthy (Some (next_touchpoints_id w))) with (truthy (next_touchpoints_id w)).
    unfold next_touchpoints_id at 1. rewrite uuid_str_truthy. cbn [negb].
    rewrite E3. change (truthy (Some details)) with (truthy details).
    rewrite (details_value_truthy _ _ Hdetails).
    cbn [negb some_str some_dict default from_option id]. rewrite E4. reflexivity.
  - cbn [workflow_exit touchpoints bus logs script corporate_customers entropy draws
         utc_clock set_frame set_logs].
    split; [by rewrite Htp4, Htp3, Htp2, Htp1|].
    split; [by rewrite Hbus4, Hbus3, Hbus2, Hbus1|].
    split; [rewrite Hlogs4, Hlogs3, Hlogs2, Hlogs1; by rewrite <- !app_assoc|].
    split; [exact Hwell4|].
    split; [by rewrite (same_customers _ _ Hun4), (same_customers _ _ Hun3)|].
    split; [by rewrite (same_entropy _ _ Hun4), (same_entropy _ _ Hun3),
                       (same_entropy _ _ Hun2)|].
    split; [by rewrite Hd4, Hd3, Hd2, Hd1|].
    by rewrite (same_clock _ _ Hun4).
Qed.



(** X14: the workflow does not look for an existing record.  Run twice
    in a row for the same customer, with nothing going wrong, it succeeds
    twice and leaves two records for that customer, under the identifiers
    of two successive draws, and two messages. *)
Theorem second_run_adds_a_second_record self w c rows details :
  well 42 (script w) ->
  customers_with_name (customer_name self) w = c :: rows ->
  truthy (cust_id c) = true ->
  details_value (customers_with_id (cust_id c) w) = Val (Some details) ->
  holds_datetime details = false ->
  let r1 := create_touchpoints_for_customer self w in
  let r2 := create_touchpoints_for_customer self (snd r1) in
  fst r1 = Val true /\
  fst r2 = Val true /\
  touchpoints (snd r2)
  = touchpoints w ++
    [new_record (uuid_str (uuid4_int (entropy w (draws w)))) (cust_id c);
     new_record (uuid_str (uuid4_int (entropy w (S (draws w))))) (cust_id c)] /\
  length (bus (snd r2)) = S (S (length (bus w))).
Proof.
  intros Hwell Hname Hcid Hdetails Hplain r1 r2.
  destruct (workflow_calm 21 self w c rows details Hwell Hname Hcid Hdetails Hplain)
    as (body1 & w1 & Hrun1 & _ & Htp1 & Hbus1 & _ & Hwell1 & Hcust1 & Hent1 & Hd1 & _).
  assert (Hname1 : customers_with_name (customer_name self) w1 = c :: rows).
  { unfold customers_with_name in *. by rewrite Hcust1. }
  assert (Hdetails1 : details_value (customers_with_id (cust_id c) w1)
                      = Val (Some details)).
  { unfold customers_with_id in *. by rewrite Hcust1. }
  destruct (workflow_calm 0 self w1 c rows details Hwell1 Hname1 Hcid Hdetails1 Hplain)
    as (body2 & w2 & Hrun2 & _ & Htp2 & Hbus2 & _).
  unfold r2, r1. rewrite Hrun1. cbn [fst snd]. rewrite Hrun2. cbn [fst snd].
  split; [done|]. split; [done|]. split.
  - rewrite Htp2, Htp1. unfold next_touchpoints_id. rewrite Hent1, Hd1.
    by rewrite <- app_assoc.
  - rewrite Hbus2, Hbus1, !length_app. cbn. lia.
Qed.

Lemma second_run_adds_a_second_record_witness :
  touchpoints
    (snd (create_touchpoints_for_customer demo_creator
            (snd (create_touchpoints_for_customer demo_creator (demo_world [])))))
  = [new_record "01234567-89ab-4def-8123-456789abcdef" (AStr "c-1");
     new_record "fedcba98-7654-4210-bedc-ba9876543210" (AStr "c-1")].
Proof.
  destruct (second_run_adds_a_second_record demo_creator (demo_world []) demo_customer []
              [("id", AStr "c-1"); ("name", AStr "Example Tech Solutions");
               ("subscription_tier", AStr "enterprise");
               ("created_at", AStr "2024-01-02T03:04:05");
               ("updated_at", ANone)])
    as (_ & _ & Htp & _).
  - constructor.
  - reflexivity.
  - reflexivity.
  - reflexivity.
  - reflexivity.
  - exact Htp.
Defined.

(** ** The demo wrapper with a bus URL *)

Lemma workflow_never_exits self w c :
  fst (create_touchpoints_for_customer self w) <> Exit c.
Proof.
  rewrite workflow_refines.
  destruct (progress_trace self w) as (Hnoexit & _).
  destruct (stop_at_first_failure self w) as [k wk|w4|k e wk|k c' wk]; cbn; try done.
  by destruct (Hnoexit k c' wk).
Qed.

Lemma example_creator_built env url :
  env !! "NATS_URL" = Some url ->
  creator_of (example_environ env) 33006 = example_creator url.
Proof.
  intros Hurl. unfold creator_of, example_creator.
  assert (H1 : example_environ env !! "DB_HOST" = Some "localhost")
    by (by lookup_example).
  assert (H2 : example_environ env !! "DB_NAME" = Some "bassline-boogie")
    by (by lookup_example).
  assert (H3 : example_environ env !! "DB_USER" = Some "bassline-boogie-user")
    by (by lookup_example).
  assert (H4 : example_environ env !! "DB_PASSWORD" = Some "8Qd8*yZK&zIxS%!s")
    by (by lookup_example).
  assert (H5 : example_environ env !! "NATS_URL" = Some url)
    by (by lookup_example).
  assert (H6 : example_environ env !! "NATS_SUBJECT" = Some "touchpoints-created")
    by (by lookup_example).
  assert (H7 : example_environ env !! "NATS_USER" = Some "admin")
    by (by lookup_example).
  assert (H8 : example_environ env !! "NATS_PASSWORD" = Some "admin")
    by (by lookup_example).
  assert (H9 : example_environ env !! "CUSTOMER_NAME" = Some "Example Tech Solutions")
    by (by lookup_example).
  by rewrite H1, H2, H3, H4, H5, H6, H7, H8, H9.
Qed.



(** ** The entry point, end to end *)

Lemma init_accepts w port :
  all_supplied (environ w) ->
  py_int (port_text (environ w)) = Some port ->
  TouchpointsCreator_init w = (Val (creator_of (environ w) port), w).
Proof.
  intros Hall Hport. rewrite init_run, Hport.
  by rewrite (proj2 (missing_vars_nil _) Hall).
Qed.

Lemma main_after_workflow w self w0 b w' :
  TouchpointsCreator_init w = (Val self, w0) ->
  create_touchpoints_for_customer self w0 = (Val b, w') ->
  main w = (Exit (if b then 0 else 1), set_logs (logs w' ++ [main_record b]) w').
Proof.
  intros Hinit Hrun. unfold main, try_except.
  rewrite (bind_val _ _ _ _ _ Hinit), (bind_val _ _ _ _ _ Hrun).
  by destruct b.
Qed.


